(** * Rebalance decision and execution engine: a shallow embedding

    The development follows the two service classes of the application:

    - [CetusService] (services/cetusService.ts): the concentrated-liquidity
      arithmetic ([calculateNewTickRange], [calculateTokenAmounts], the
      slippage minimum of [buildAddLiquidityTx], [isPriceOutOfRange]) and
      [rebalancePosition];
    - [BotService] (services/botService.ts): the bot object, its monitoring
      loop, the manual trigger, the configuration update and the error log.

    Conventions of the embedding.

    - A JavaScript [number] that holds a tick, a count or a millisecond
      timestamp is an integer ([Z]); a percentage or an interval of the
      configuration is a rational ([Q]).  Where the source goes through
      [Math.log], the double is idealised as the real number it approximates
      ([R]); the integer results are then characterised over [Z].
    - A [BigNumber] of bignumber.js is the rational it denotes; the
      library's defaults (DECIMAL_PLACES = 20, ROUNDING_MODE = ROUND_HALF_UP)
      are written out in module [BN].
    - An [async] method is a [Task]: a tree of synchronous effects on the bot
      object that suspends at each ledger call; the event loop of the host
      is a transition function on a [World] that holds the suspended tasks
      and the live interval timers.  Between two suspensions a method runs
      without interruption, and every [Date.now()] and [new Date()] of that
      stretch reads the same clock value.
    - The ledger is a collaborator: its answers ([getPosition],
      [rebalancePosition], the submission of a transaction) are inputs of
      the model.  The observers only receive what the bot passes them; the
      text of a log line is kept apart from the time in its bracketed
      prefix. *)

From Stdlib Require Import ZArith QArith Qround Reals Psatz List String Bool.
From Stdlib Require Import DecimalString.
Import ListNotations.

Local Open Scope string_scope.
Local Open Scope Z_scope.

(** ** JavaScript helpers *)

(** [Math]: the functions of the host's [Math] object that the source calls,
    on idealised doubles. *)
Module Math.

(** [Math.floor(x)]: the greatest integer not above [x]. *)
Definition floor (x : R) : Z := Int_part x.

(** [Math.ceil(x)]: the least integer not below [x]. *)
Definition ceil (x : R) : Z := - Int_part (- x).

(** [Math.round(x)]: the nearest integer, a half rounding towards
    plus infinity. *)
Definition round (x : R) : Z := Int_part (x + / 2).

(** [Math.log(x)]: the natural logarithm. *)
Definition log (x : R) : R := ln x.

End Math.

(** Truthiness of a [string | null] or optional string: [null], [undefined]
    and the empty string are falsy. *)
Definition truthy (s : option string) : bool :=
  match s with
  | Some (String _ _) => true
  | _ => false
  end.

(** Truthiness of a [number | null]: [null] and [0] are falsy. *)
Definition truthy_num (n : option Z) : bool :=
  match n with
  | Some n => negb (n =? 0)
  | None => false
  end.

(** The number that a [number | null] denotes in arithmetic and in
    [x || 0]: [null] counts as [0]. *)
Definition to_number (n : option Z) : Z :=
  match n with
  | Some n => n
  | None => 0
  end.

(** A number interpolated in a template string. *)
Definition show (n : Z) : string := NilZero.string_of_int (Z.to_int n).

(** An optional string interpolated or concatenated: an absent one reads
    "undefined". *)
Definition show_opt (s : option string) : string :=
  match s with
  | Some s => s
  | None => "undefined"
  end.

(** A [string | null] interpolated or concatenated: [null] reads "null". *)
Definition show_id (s : option string) : string :=
  match s with
  | Some s => s
  | None => "null"
  end.

(** ** bignumber.js *)

(** [BN]: the operations of bignumber.js that the source calls, with the
    library's default configuration.  A finite BigNumber is the rational it
    denotes; [None] stands for a value that is not finite (the result of a
    division by zero). *)
Module BN.

Local Open Scope Q_scope.

Definition DECIMAL_PLACES : Z := 20.

(** ROUND_HALF_UP: to the nearest integer, a half rounding away from
    zero. *)
Definition round_half_up (q : Q) : Z :=
  if Qle_bool 0 q then Qfloor (q + (1 # 2)) else Qceiling (q - (1 # 2)).

Definition times (a b : Q) : Q := a * b.

Definition minus (a b : Q) : Q := a - b.

Definition lt (a b : Q) : bool := negb (Qle_bool b a).

Definition gt (a b : Q) : bool := negb (Qle_bool a b).

(** The scale [10^DECIMAL_PLACES]. *)
Definition scale : Q := inject_Z (10 ^ DECIMAL_PLACES).

(** [a.div(b)]: the quotient rounded to [DECIMAL_PLACES] decimal places
    with ROUND_HALF_UP; not finite when [b] is zero. *)
Definition div (a b : Q) : option Q :=
  if Qeq_bool b 0 then None
  else Some (inject_Z (round_half_up (a / b * scale)) / scale).

(** [a.toFixed(0)]: the decimal string of [a] rounded to an integer with
    ROUND_HALF_UP, here the integer that the string denotes. *)
Definition toFixed0 (a : Q) : Z := round_half_up a.

End BN.

(** ** Types (types/index.ts) *)

(** The fields of [LiquidityPosition] that the engine reads; the display
    fields (symbols, decimals, price string, fee growth) are left out. *)
Record LiquidityPosition := {
  id : string;
  poolId : string;
  coinTypeA : string;
  coinTypeB : string;
  amountA : Q;
  amountB : Q;
  tickLower : Z;
  tickUpper : Z;
  currentTick : Z;
  liquidity : Q
}.

(** The fields of [PoolInfo] that [rebalancePosition] reads. *)
Record PoolInfo := {
  pool_tickSpacing : Z;
  pool_currentTick : Z
}.

Record RebalanceConfig := {
  slippageTolerance : Q;
  rangeWidthPercent : Q;
  minRebalanceInterval : Q;
  gasBudget : Q;
  autoRebalance : bool
}.

(** A line of the log: the time read by [new Date()] and the text after the
    bracketed timestamp. *)
Record LogLine := {
  at_ms : Z;
  text : string
}.

Record BotState := {
  isRunning : bool;
  lastRebalanceTime : option Z;
  rebalanceCount : Z;
  totalGasSpent : Z;
  errors : list LogLine
}.

(** [gasCost] is the integer its decimal string denotes ([BigInt(gasCost)]);
    an absent or empty string is [None]. *)
Record RebalanceResult := {
  success : bool;
  txHash : option string;
  gasCost : option Z;
  newPositionId : option string;
  newTickLower : option Z;
  newTickUpper : option Z;
  error : option string
}.

(** ** CetusService: the liquidity arithmetic *)

(** [isPriceOutOfRange]. *)
Definition isPriceOutOfRange (position : LiquidityPosition) : bool :=
  let currentTick := currentTick position in
  (currentTick <? tickLower position) || (currentTick >? tickUpper position).

Record TickRange := {
  range_tickLower : Z;
  range_tickUpper : Z
}.

(** [calculateNewTickRange].  [tickSpacing] is not zero (the source then
    yields NaN bounds). *)
Definition calculateNewTickRange
    (currentTick tickSpacing : Z) (rangeWidthPercent : R) : TickRange :=
  let priceRatio := (1 + rangeWidthPercent / 100)%R in
  let tickRange :=
    Math.round (Math.log priceRatio / Math.log (10001 / 10000))%R in
  let halfRange := Math.round (IZR tickRange / 2)%R in
  let tickLower :=
    Math.floor (IZR (currentTick - halfRange) / IZR tickSpacing)%R
    * tickSpacing in
  let tickUpper :=
    Math.ceil (IZR (currentTick + halfRange) / IZR tickSpacing)%R
    * tickSpacing in
  {| range_tickLower := tickLower; range_tickUpper := tickUpper |}.

(** The half width in ticks that [calculateNewTickRange] derives from the
    percentage. *)
Definition halfRangeOf (rangeWidthPercent : R) : Z :=
  Math.round
    (IZR (Math.round (Math.log (1 + rangeWidthPercent / 100)
                      / Math.log (10001 / 10000))%R) / 2)%R.

Record TokenAmounts := {
  out_amountA : option Q;
  out_amountB : option Q
}.

(** [calculateTokenAmounts]. *)
Definition calculateTokenAmounts
    (liquidity sqrtPriceCurrent sqrtPriceLower sqrtPriceUpper : Q)
    : TokenAmounts :=
  if BN.lt sqrtPriceCurrent sqrtPriceLower then
    {| out_amountA :=
         BN.div (BN.times liquidity (BN.minus sqrtPriceUpper sqrtPriceLower))
                (BN.times sqrtPriceUpper sqrtPriceLower);
       out_amountB := Some 0%Q |}
  else if BN.gt sqrtPriceCurrent sqrtPriceUpper then
    {| out_amountA := Some 0%Q;
       out_amountB :=
         Some (BN.times liquidity (BN.minus sqrtPriceUpper sqrtPriceLower)) |}
  else
    {| out_amountA :=
         BN.div (BN.times liquidity (BN.minus sqrtPriceUpper sqrtPriceCurrent))
                (BN.times sqrtPriceUpper sqrtPriceCurrent);
       out_amountB :=
         Some (BN.times liquidity
                 (BN.minus sqrtPriceCurrent sqrtPriceLower)) |}.

(** The minimum amount of [buildAddLiquidityTx]:
    [new BN(amount).times(1 - slippageTolerance / 100).toFixed(0)]. *)
Definition minAmount (amount slippageTolerance : Q) : Z :=
  BN.toFixed0 (BN.times amount (1 - slippageTolerance / 100)%Q).

(** The arguments of the two move calls that [buildAddLiquidityTx] adds. *)
Record AddLiquidityCall := {
  add_poolId : string;
  add_tickLower : Z;
  add_tickUpper : Z;
  add_amountA : Q;
  add_amountB : Q;
  add_minAmountA : Z;
  add_minAmountB : Z
}.

Definition buildAddLiquidityTx
    (poolId : string) (amountA amountB : Q) (tickLower tickUpper : Z)
    (slippageTolerance : Q) : AddLiquidityCall :=
  let minAmountA := minAmount amountA slippageTolerance in
  let minAmountB := minAmount amountB slippageTolerance in
  {| add_poolId := poolId;
     add_tickLower := tickLower;
     add_tickUpper := tickUpper;
     add_amountA := amountA;
     add_amountB := amountB;
     add_minAmountA := minAmountA;
     add_minAmountB := minAmountB |}.

(** ** CetusService: [rebalancePosition] *)

(** The outcome of an awaited call: the promise is fulfilled with a value or
    rejected with an error whose message is [msg]. *)
Inductive Settled (A : Type) : Type :=
| Fulfilled (a : A)
| Rejected (msg : string).

Arguments Fulfilled {A} a.
Arguments Rejected {A} msg.

(** The transaction that [rebalancePosition] builds: the gas budget, the
    [remove_liquidity] call of [buildRemoveLiquidityTx] and the calls of
    [buildAddLiquidityTx]. *)
Record RebalanceTx := {
  tx_gasBudget : Q;
  tx_removePositionId : string;
  tx_removePoolId : string;
  tx_removeLiquidity : Q;
  tx_add : AddLiquidityCall
}.

(** What the ledger reports for an executed transaction: its digest and the
    computation cost of its effects, when present. *)
Record ExecResult := {
  digest : string;
  computationCost : option Z
}.

(** [rebalancePosition].  The collaborators are given by their outcomes:
    [senderAddress] is the connected wallet, [position] and [poolInfo] are
    what [getPosition] and [getPoolInfo] return ([None] is [null]), and
    [submit] is the rest of the [try] block once the transaction is built
    (signer, [signAndExecuteTransaction], [waitForTransaction]), which the
    ledger fulfils or rejects. *)
Definition rebalancePosition
    (senderAddress : option string)
    (position : option LiquidityPosition)
    (poolInfo : option PoolInfo)
    (submit : RebalanceTx -> Settled ExecResult)
    (positionId : string) (config : RebalanceConfig) : RebalanceResult :=
  let failure (msg : string) :=
    {| success := false; txHash := None; gasCost := None;
       newPositionId := None; newTickLower := None; newTickUpper := None;
       error := Some msg |} in
  if negb (truthy senderAddress) then failure "Wallet not connected"
  else
    match position with
    | None => failure "Position not found"
    | Some position =>
      if negb (isPriceOutOfRange position) then
        failure "Price is still within range"
      else
        match poolInfo with
        | None => failure "Pool not found"
        | Some poolInfo =>
          let range :=
            calculateNewTickRange (pool_currentTick poolInfo)
              (pool_tickSpacing poolInfo) (Q2R (rangeWidthPercent config)) in
          let tickLower := range_tickLower range in
          let tickUpper := range_tickUpper range in
          let tx :=
            {| tx_gasBudget := gasBudget config;
               tx_removePositionId := positionId;
               tx_removePoolId := poolId position;
               tx_removeLiquidity := liquidity position;
               tx_add :=
                 buildAddLiquidityTx (poolId position)
                   (amountA position) (amountB position)
                   tickLower tickUpper (slippageTolerance config) |} in
          match submit tx with
          | Fulfilled result =>
            {| success := true;
               txHash := Some (digest result);
               gasCost :=
                 Some (match computationCost result with
                       | Some c => c
                       | None => 0
                       end);
               newPositionId := None;
               newTickLower := Some tickLower;
               newTickUpper := Some tickUpper;
               error := None |}
          | Rejected msg => failure msg
          end
        end
    end.

(** [getSigner] of the source is a placeholder that throws: with it the
    submission is always rejected. *)
Definition getSigner_placeholder : RebalanceTx -> Settled ExecResult :=
  fun _ => Rejected "Wallet signer not implemented".

(** ** BotService: the bot object *)

(** The fields of a [BotService] instance.  [monitoringInterval] is the
    handle of the interval timer; a callback field is [true] when a callback
    is attached. *)
Record Bot := {
  config : RebalanceConfig;
  state : BotState;
  monitoringInterval : option nat;
  positionId : option string;
  onStatusUpdate : bool;
  onRebalance : bool
}.

Definition set_config (c : RebalanceConfig) (b : Bot) : Bot :=
  {| config := c; state := state b;
     monitoringInterval := monitoringInterval b; positionId := positionId b;
     onStatusUpdate := onStatusUpdate b; onRebalance := onRebalance b |}.

Definition set_state (s : BotState) (b : Bot) : Bot :=
  {| config := config b; state := s;
     monitoringInterval := monitoringInterval b; positionId := positionId b;
     onStatusUpdate := onStatusUpdate b; onRebalance := onRebalance b |}.

Definition set_monitoringInterval (h : option nat) (b : Bot) : Bot :=
  {| config := config b; state := state b;
     monitoringInterval := h; positionId := positionId b;
     onStatusUpdate := onStatusUpdate b; onRebalance := onRebalance b |}.

Definition set_positionId (p : option string) (b : Bot) : Bot :=
  {| config := config b; state := state b;
     monitoringInterval := monitoringInterval b; positionId := p;
     onStatusUpdate := onStatusUpdate b; onRebalance := onRebalance b |}.

Definition set_isRunning (r : bool) (s : BotState) : BotState :=
  {| isRunning := r; lastRebalanceTime := lastRebalanceTime s;
     rebalanceCount := rebalanceCount s; totalGasSpent := totalGasSpent s;
     errors := errors s |}.

Definition set_lastRebalanceTime (t : option Z) (s : BotState) : BotState :=
  {| isRunning := isRunning s; lastRebalanceTime := t;
     rebalanceCount := rebalanceCount s; totalGasSpent := totalGasSpent s;
     errors := errors s |}.

Definition set_rebalanceCount (n : Z) (s : BotState) : BotState :=
  {| isRunning := isRunning s; lastRebalanceTime := lastRebalanceTime s;
     rebalanceCount := n; totalGasSpent := totalGasSpent s;
     errors := errors s |}.

Definition set_totalGasSpent (g : Z) (s : BotState) : BotState :=
  {| isRunning := isRunning s; lastRebalanceTime := lastRebalanceTime s;
     rebalanceCount := rebalanceCount s; totalGasSpent := g;
     errors := errors s |}.

Definition set_errors (e : list LogLine) (s : BotState) : BotState :=
  {| isRunning := isRunning s; lastRebalanceTime := lastRebalanceTime s;
     rebalanceCount := rebalanceCount s; totalGasSpent := totalGasSpent s;
     errors := e |}.

(** The constructor. *)
Definition newBotService
    (config : RebalanceConfig) (onStatusUpdate onRebalance : bool) : Bot :=
  {| config := config;
     state := {| isRunning := false; lastRebalanceTime := None;
                 rebalanceCount := 0; totalGasSpent := 0; errors := [] |};
     monitoringInterval := None;
     positionId := None;
     onStatusUpdate := onStatusUpdate;
     onRebalance := onRebalance |}.

(** [Partial<RebalanceConfig>]: a field is [Some] when the update has it. *)
Record PartialConfig := {
  new_slippageTolerance : option Q;
  new_rangeWidthPercent : option Q;
  new_minRebalanceInterval : option Q;
  new_gasBudget : option Q;
  new_autoRebalance : option bool
}.

(** The object spread [{ ...config, ...newConfig }]. *)
Definition spread (config : RebalanceConfig) (newConfig : PartialConfig)
    : RebalanceConfig :=
  let pick {A} (new : option A) (old : A) :=
    match new with Some v => v | None => old end in
  {| slippageTolerance :=
       pick (new_slippageTolerance newConfig) (slippageTolerance config);
     rangeWidthPercent :=
       pick (new_rangeWidthPercent newConfig) (rangeWidthPercent config);
     minRebalanceInterval :=
       pick (new_minRebalanceInterval newConfig) (minRebalanceInterval config);
     gasBudget := pick (new_gasBudget newConfig) (gasBudget config);
     autoRebalance :=
       pick (new_autoRebalance newConfig) (autoRebalance config) |}.

(** What the bot writes to the outside: the console and the two observer
    callbacks. *)
Inductive Output :=
| ConsoleLog (l : LogLine)
| ConsoleError (l : LogLine)
| StatusUpdate (l : LogLine)
| Rebalance (r : RebalanceResult).

(** ** Tasks: the methods as effect trees *)

(** A method body: it returns or throws, reads and writes the bot object,
    reads the clock, writes output, sets and clears interval timers, and
    awaits the two ledger calls of [CetusService] that the bot uses. *)
Inductive Task (A : Type) : Type :=
| Ret (a : A)
| Throw (msg : string)
| GetBot (k : Bot -> Task A)
| PutBot (b : Bot) (k : Task A)
| DateNow (k : Z -> Task A)
| Emit (o : Output) (k : Task A)
| SetInterval (ms : Z) (k : nat -> Task A)
| ClearInterval (h : nat) (k : Task A)
| AwaitGetPosition (id : string)
    (k : Settled (option LiquidityPosition) -> Task A)
| AwaitRebalance (id : string) (cfg : RebalanceConfig)
    (k : Settled RebalanceResult -> Task A).

Arguments Ret {A} a.
Arguments Throw {A} msg.
Arguments GetBot {A} k.
Arguments PutBot {A} b k.
Arguments DateNow {A} k.
Arguments Emit {A} o k.
Arguments SetInterval {A} ms k.
Arguments ClearInterval {A} h k.
Arguments AwaitGetPosition {A} id k.
Arguments AwaitRebalance {A} id cfg k.

Fixpoint bind {A B : Type} (t : Task A) (f : A -> Task B) : Task B :=
  match t with
  | Ret a => f a
  | Throw msg => Throw msg
  | GetBot k => GetBot (fun b => bind (k b) f)
  | PutBot b k => PutBot b (bind k f)
  | DateNow k => DateNow (fun n => bind (k n) f)
  | Emit o k => Emit o (bind k f)
  | SetInterval ms k => SetInterval ms (fun h => bind (k h) f)
  | ClearInterval h k => ClearInterval h (bind k f)
  | AwaitGetPosition id k => AwaitGetPosition id (fun s => bind (k s) f)
  | AwaitRebalance id cfg k => AwaitRebalance id cfg (fun s => bind (k s) f)
  end.

(** [try { t } catch (error) { h error.message }]. *)
Fixpoint catch {A : Type} (t : Task A) (h : string -> Task A) : Task A :=
  match t with
  | Ret a => Ret a
  | Throw msg => h msg
  | GetBot k => GetBot (fun b => catch (k b) h)
  | PutBot b k => PutBot b (catch k h)
  | DateNow k => DateNow (fun n => catch (k n) h)
  | Emit o k => Emit o (catch k h)
  | SetInterval ms k => SetInterval ms (fun i => catch (k i) h)
  | ClearInterval i k => ClearInterval i (catch k h)
  | AwaitGetPosition id k => AwaitGetPosition id (fun s => catch (k s) h)
  | AwaitRebalance id cfg k => AwaitRebalance id cfg (fun s => catch (k s) h)
  end.

Declare Scope task_scope.
Delimit Scope task_scope with task.
Bind Scope task_scope with Task.

Notation "x <- t ;; k" := (bind t (fun x => k))
  (at level 61, t at next level, right associativity) : task_scope.
Notation "t ;; k" := (bind t (fun _ => k))
  (at level 61, right associativity) : task_scope.

Local Open Scope task_scope.

Definition getBot : Task Bot := GetBot (fun b => Ret b).

(** An assignment to a field of [this]. *)
Definition assign (f : Bot -> Bot) : Task unit :=
  GetBot (fun b => PutBot (f b) (Ret tt)).

(** An assignment to a field of [this.state]. *)
Definition assign_state (f : BotState -> BotState) : Task unit :=
  assign (fun b => set_state (f (state b)) b).

Definition dateNow : Task Z := DateNow (fun n => Ret n).

Definition emit (o : Output) : Task unit := Emit o (Ret tt).

Definition setInterval (ms : Z) : Task nat := SetInterval ms (fun h => Ret h).

Definition clearInterval (h : nat) : Task unit := ClearInterval h (Ret tt).

(** [await this.cetusService.getPosition(id)]. *)
Definition await_getPosition (id : string)
    : Task (option LiquidityPosition) :=
  AwaitGetPosition id (fun s =>
    match s with
    | Fulfilled p => Ret p
    | Rejected msg => Throw msg
    end).

(** [await this.cetusService.rebalancePosition(id, config)]. *)
Definition await_rebalancePosition (id : string) (cfg : RebalanceConfig)
    : Task RebalanceResult :=
  AwaitRebalance id cfg (fun s =>
    match s with
    | Fulfilled r => Ret r
    | Rejected msg => Throw msg
    end).

(** [if (c) { t }]. *)
Definition when (c : bool) (t : Task unit) : Task unit :=
  if c then t else Ret tt.

(** ** BotService: the methods *)

(** [logStatus]. *)
Definition logStatus (message : string) : Task unit :=
  timestamp <- dateNow ;;
  let logMessage := {| at_ms := timestamp; text := message |} in
  emit (ConsoleLog logMessage) ;;
  this <- getBot ;;
  when (onStatusUpdate this) (emit (StatusUpdate logMessage)).

(** The error list after [push] and the [shift] that keeps the last 100. *)
Definition push_error (logMessage : LogLine) (errors : list LogLine)
    : list LogLine :=
  let pushed := (errors ++ [logMessage])%list in
  if (100 <? Z.of_nat (List.length pushed)) then tl pushed else pushed.

(** [logError]. *)
Definition logError (message : string) : Task unit :=
  timestamp <- dateNow ;;
  let logMessage :=
    {| at_ms := timestamp; text := ("ERROR: " ++ message)%string |} in
  emit (ConsoleError logMessage) ;;
  assign_state (fun s => set_errors (push_error logMessage (errors s)) s) ;;
  this <- getBot ;;
  when (onStatusUpdate this) (emit (StatusUpdate logMessage)).

(** [canRebalance]. *)
Definition canRebalance : Task bool :=
  this <- getBot ;;
  if negb (truthy_num (lastRebalanceTime (state this))) then Ret true
  else
    now <- dateNow ;;
    let timeSinceLastRebalance :=
      now - to_number (lastRebalanceTime (state this)) in
    Ret (Qle_bool (minRebalanceInterval (config this) * 1000)%Q
                  (inject_Z timeSinceLastRebalance)).

(** [executeRebalance]. *)
Definition executeRebalance : Task unit :=
  this <- getBot ;;
  if negb (truthy (positionId this)) then Ret tt
  else
    logStatus "Executing rebalance..." ;;
    catch
      (this <- getBot ;;
       result <- await_rebalancePosition
                   (show_id (positionId this)) (config this) ;;
       (if success result then
          now <- dateNow ;;
          assign_state (set_lastRebalanceTime (Some now)) ;;
          assign_state (fun s => set_rebalanceCount (rebalanceCount s + 1) s) ;;
          match gasCost result with
          | Some gas =>
            assign_state
              (fun s => set_totalGasSpent (totalGasSpent s + gas) s)
          | None => Ret tt
          end ;;
          logStatus ("Rebalance successful! Tx: "
                     ++ show_opt (txHash result))%string ;;
          when (truthy (newPositionId result))
               (assign (set_positionId (newPositionId result)))
        else
          logError ("Rebalance failed: " ++ show_opt (error result))%string) ;;
       this <- getBot ;;
       when (onRebalance this) (emit (Rebalance result)))
      (fun message =>
         logError ("Error during rebalance: " ++ message)%string).

(** The range text shared by the status lines. *)
Definition range_text (position : LiquidityPosition) : string :=
  (show (currentTick position) ++ ", Range: ["
   ++ show (tickLower position) ++ ", "
   ++ show (tickUpper position) ++ "]")%string.

(** [checkAndRebalance]. *)
Definition checkAndRebalance : Task unit :=
  this <- getBot ;;
  if negb (truthy (positionId this)) then logError "No position ID set"
  else
    catch
      (position <- await_getPosition (show_id (positionId this)) ;;
       match position with
       | None =>
         this <- getBot ;;
         logError ("Position not found: "
                   ++ show_id (positionId this))%string
       | Some position =>
         let isOutOfRange := isPriceOutOfRange position in
         if isOutOfRange then
           logStatus ("Price out of range! Current tick: "
                      ++ range_text position)%string ;;
           can <- canRebalance ;;
           if can then executeRebalance
           else logStatus "Waiting for minimum rebalance interval..."
         else
           logStatus ("Price in range. Current tick: "
                      ++ range_text position)%string
       end)
      (fun message => logError ("Error during check: " ++ message)%string).

(** [startMonitoring]. *)
Definition startMonitoring (positionId : string) (checkIntervalMs : Z)
    : Task unit :=
  this <- getBot ;;
  if isRunning (state this) then Throw "Bot is already running"
  else
    assign (set_positionId (Some positionId)) ;;
    assign_state (set_isRunning true) ;;
    logStatus ("Bot started monitoring position: " ++ positionId)%string ;;
    checkAndRebalance ;;
    handle <- setInterval checkIntervalMs ;;
    assign (set_monitoringInterval (Some handle)).

(** [stopMonitoring]. *)
Definition stopMonitoring : Task unit :=
  this <- getBot ;;
  match monitoringInterval this with
  | Some handle =>
    clearInterval handle ;;
    assign (set_monitoringInterval None)
  | None => Ret tt
  end ;;
  assign_state (set_isRunning false) ;;
  logStatus "Bot stopped monitoring".

(** [getState]. *)
Definition getState (this : Bot) : BotState := state this.

(** [updateConfig]. *)
Definition updateConfig (newConfig : PartialConfig) : Task unit :=
  assign (fun this => set_config (spread (config this) newConfig) this) ;;
  logStatus "Configuration updated".

(** [getConfig]. *)
Definition getConfig (this : Bot) : RebalanceConfig := config this.

(** [getPositionId]. *)
Definition getPositionId (this : Bot) : option string := positionId this.

(** [triggerRebalance]. *)
Definition triggerRebalance : Task RebalanceResult :=
  this <- getBot ;;
  if negb (truthy (positionId this)) then
    Ret {| success := false; txHash := None; gasCost := None;
           newPositionId := None; newTickLower := None; newTickUpper := None;
           error := Some "No position being monitored" |}
  else
    logStatus "Manual rebalance triggered" ;;
    this <- getBot ;;
    result <- await_rebalancePosition
                (show_id (positionId this)) (config this) ;;
    when (success result)
      (now <- dateNow ;;
       assign_state (set_lastRebalanceTime (Some now)) ;;
       assign_state (fun s => set_rebalanceCount (rebalanceCount s + 1) s) ;;
       match gasCost result with
       | Some gas =>
         assign_state (fun s => set_totalGasSpent (totalGasSpent s + gas) s)
       | None => Ret tt
       end) ;;
    this <- getBot ;;
    when (onRebalance this) (emit (Rebalance result)) ;;
    Ret result.

(** [getPositionInfo]. *)
Definition getPositionInfo : Task (option LiquidityPosition) :=
  this <- getBot ;;
  if negb (truthy (positionId this)) then Ret None
  else await_getPosition (show_id (positionId this)).

Record RebalanceCheck := {
  needed : bool;
  reason : option string
}.

(** [checkRebalanceNeeded]. *)
Definition checkRebalanceNeeded : Task RebalanceCheck :=
  this <- getBot ;;
  if negb (truthy (positionId this)) then
    Ret {| needed := false; reason := Some "No position being monitored" |}
  else
    position <- await_getPosition (show_id (positionId this)) ;;
    match position with
    | None => Ret {| needed := false; reason := Some "Position not found" |}
    | Some position =>
      let isOutOfRange := isPriceOutOfRange position in
      if negb isOutOfRange then
        Ret {| needed := false;
               reason := Some ("Price in range. Current: "
                               ++ range_text position)%string |}
      else
        can <- canRebalance ;;
        if negb can then
          this <- getBot ;;
          now <- dateNow ;;
          let waitTime :=
            Qceiling
              ((minRebalanceInterval (config this) * 1000
                - inject_Z (now - to_number (lastRebalanceTime (state this))))
               / 1000)%Q in
          Ret {| needed := false;
                 reason := Some ("Waiting " ++ show waitTime
                                 ++ "s for min rebalance interval")%string |}
        else
          Ret {| needed := true;
                 reason := Some ("Price out of range! Current: "
                                 ++ range_text position)%string |}
    end.

(** ** The host: running tasks *)

(** What a task acts on: the bot object, the live interval timers of the
    host with the next fresh handle, and the output written so far (oldest
    first). *)
Record Machine := {
  bot : Bot;
  timers : list nat;
  nextTimer : nat;
  output : list Output
}.

Definition with_bot (b : Bot) (m : Machine) : Machine :=
  {| bot := b; timers := timers m; nextTimer := nextTimer m;
     output := output m |}.

Definition with_output (o : Output) (m : Machine) : Machine :=
  {| bot := bot m; timers := timers m; nextTimer := nextTimer m;
     output := (output m ++ [o])%list |}.

Definition with_new_timer (m : Machine) : Machine :=
  {| bot := bot m; timers := nextTimer m :: timers m;
     nextTimer := S (nextTimer m); output := output m |}.

Definition without_timer (h : nat) (m : Machine) : Machine :=
  {| bot := bot m; timers := List.remove Nat.eq_dec h (timers m);
     nextTimer := nextTimer m; output := output m |}.

(** [run t now m] executes the synchronous part of [t] at clock time [now]:
    up to its end ([Ret], [Throw]) or up to its next ledger call. *)
Fixpoint run {A : Type} (t : Task A) (now : Z) (m : Machine)
    : Machine * Task A :=
  match t with
  | Ret a => (m, Ret a)
  | Throw msg => (m, Throw msg)
  | GetBot k => run (k (bot m)) now m
  | PutBot b k => run k now (with_bot b m)
  | DateNow k => run (k now) now m
  | Emit o k => run k now (with_output o m)
  | SetInterval ms k => run (k (nextTimer m)) now (with_new_timer m)
  | ClearInterval h k => run k now (without_timer h m)
  | AwaitGetPosition id k => (m, AwaitGetPosition id k)
  | AwaitRebalance id cfg k => (m, AwaitRebalance id cfg k)
  end.

(** What the ledger answers to a pending call. *)
Inductive Response :=
| PositionSettled (s : Settled (option LiquidityPosition))
| RebalanceSettled (s : Settled RebalanceResult).

(** The continuation of a suspended task once its call settles; [None] when
    the task is not waiting for this kind of answer. *)
Definition resume {A : Type} (t : Task A) (r : Response) : option (Task A) :=
  match t, r with
  | AwaitGetPosition _ k, PositionSettled s => Some (k s)
  | AwaitRebalance _ _ k, RebalanceSettled s => Some (k s)
  | _, _ => None
  end.

(** [settle t r now m]: the ledger settles the call that [t] waits for with
    [r], and [t] goes on at clock time [now] from the machine [m] that it
    then finds. *)
Definition settle {A : Type} (t : Task A) (r : Response) (now : Z)
    (m : Machine) : Machine * Task A :=
  match resume t r with
  | Some t' => run t' now m
  | None => (m, t)
  end.

(** [play t script now m] runs [t] alone: each ledger call in turn settles
    with the next answer of [script], at the time given with it. *)
Fixpoint play {A : Type} (t : Task A) (script : list (Response * Z))
    (now : Z) (m : Machine) : Machine * Task A :=
  match script with
  | [] => run t now m
  | (r, later) :: script =>
    let (m1, t1) := run t now m in
    match resume t1 r with
    | Some t2 => play t2 script later m1
    | None => (m1, t1)
    end
  end.

(** The ledger call a suspended task waits for. *)
Inductive Request :=
| GetPositionCall (id : string)
| RebalanceCall (id : string) (cfg : RebalanceConfig).

Definition request {A : Type} (t : Task A) : option Request :=
  match t with
  | AwaitGetPosition id _ => Some (GetPositionCall id)
  | AwaitRebalance id cfg _ => Some (RebalanceCall id cfg)
  | _ => None
  end.

(** ** The host: the event loop *)

(** Where a suspended task comes from: a monitoring cycle (the initial check
    of [startMonitoring] or a tick of the interval timer) or another call of
    the public interface. *)
Inductive Origin := Cycle | Manual.

Record Suspended := {
  origin : Origin;
  task : Task unit
}.

(** The bot, its host, and the calls in flight. *)
Record World := {
  machine : Machine;
  inflight : list Suspended
}.

(** The calls of the public interface that act on the bot. *)
Inductive ApiCall :=
| StartMonitoring (positionId : string) (checkIntervalMs : Z)
| StopMonitoring
| UpdateConfig (newConfig : PartialConfig)
| TriggerRebalance
| GetPositionInfo
| CheckRebalanceNeeded.

Definition body (c : ApiCall) : Task unit :=
  match c with
  | StartMonitoring positionId checkIntervalMs =>
    startMonitoring positionId checkIntervalMs
  | StopMonitoring => stopMonitoring
  | UpdateConfig newConfig => updateConfig newConfig
  | TriggerRebalance => triggerRebalance ;; Ret tt
  | GetPositionInfo => getPositionInfo ;; Ret tt
  | CheckRebalanceNeeded => checkRebalanceNeeded ;; Ret tt
  end.

Definition origin_of (c : ApiCall) : Origin :=
  match c with
  | StartMonitoring _ _ => Cycle
  | _ => Manual
  end.

(** What the host does, one event at a time: the presentation layer calls
    the interface, a live interval timer fires, or the ledger settles the
    call of the [i]-th task in flight. *)
Inductive Event :=
| Calls (c : ApiCall) (now : Z)
| TimerFires (h : nat) (now : Z)
| Settles (i : nat) (r : Response) (now : Z).

(** Runs a task to its next suspension and keeps it in flight if it is
    suspended there. *)
Definition launch (o : Origin) (t : Task unit) (now : Z) (w : World)
    : World :=
  let (m, t') := run t now (machine w) in
  {| machine := m;
     inflight :=
       match request t' with
       | Some _ => (inflight w ++ [{| origin := o; task := t' |}])%list
       | None => inflight w
       end |}.

(** The list without its [i]-th element. *)
Definition drop_nth {A : Type} (i : nat) (l : list A) : list A :=
  (firstn i l ++ skipn (S i) l)%list.

Definition step (w : World) (e : Event) : World :=
  match e with
  | Calls c now => launch (origin_of c) (body c) now w
  | TimerFires h now =>
    if in_dec Nat.eq_dec h (timers (machine w)) then
      launch Cycle checkAndRebalance now w
    else w
  | Settles i r now =>
    match nth_error (inflight w) i with
    | Some s =>
      match resume (task s) r with
      | Some t =>
        launch (origin s) t now
          {| machine := machine w; inflight := drop_nth i (inflight w) |}
      | None => w
      end
    | None => w
    end
  end.

Definition exec (w : World) (events : list Event) : World :=
  fold_left step events w.

(** The world right after [new BotService(cetusService, config, callbacks)]. *)
Definition boot (config : RebalanceConfig) (onStatusUpdate onRebalance : bool)
    : World :=
  {| machine := {| bot := newBotService config onStatusUpdate onRebalance;
                   timers := []; nextTimer := 0%nat; output := [] |};
     inflight := [] |}.

(** The monitoring cycles in flight and the ledger calls they wait for. *)
Definition cycles (w : World) : list Suspended :=
  filter (fun s => match origin s with Cycle => true | Manual => false end)
         (inflight w).

Definition pending (l : list Suspended) : list (option Request) :=
  map (fun s => request (task s)) l.

(** The clock reading at an event. *)
Definition time_of (e : Event) : Z :=
  match e with
  | Calls _ now => now
  | TimerFires _ now => now
  | Settles _ _ now => now
  end.

(** ** Properties of the bot *)


(** The capacity of the error log. *)
Definition log_bounded (this : Bot) : Prop :=
  (List.length (errors (state this)) <= 100)%nat.

(** The last rebalance time, when set, is not the falsy 0. *)
Definition last_time_set (this : Bot) : Prop :=
  lastRebalanceTime (state this) <> Some 0.

(** No condition on the clock. *)
Definition any_time (now : Z) : Prop := True.

(** The clock reads a time after the epoch. *)
Definition after_epoch (now : Z) : Prop := 0 < now.

Section Preservation.

(** A property of the bot object and a property of the clock readings. *)
Variable I : Bot -> Prop.
Variable C : Z -> Prop.

(** [preserves t]: every bot that [t] writes satisfies [I], as long as every
    bot that it reads does and every clock reading satisfies [C]. *)
Inductive preserves {A : Type} : Task A -> Prop :=
| preserves_Ret (a : A) : preserves (Ret a)
| preserves_Throw (msg : string) : preserves (Throw msg)
| preserves_GetBot (k : Bot -> Task A) :
    (forall b, I b -> preserves (k b)) -> preserves (GetBot k)
| preserves_PutBot (b : Bot) (k : Task A) :
    I b -> preserves k -> preserves (PutBot b k)
| preserves_DateNow (k : Z -> Task A) :
    (forall n, C n -> preserves (k n)) -> preserves (DateNow k)
| preserves_Emit (o : Output) (k : Task A) :
    preserves k -> preserves (Emit o k)
| preserves_SetInterval (ms : Z) (k : nat -> Task A) :
    (forall h, preserves (k h)) -> preserves (SetInterval ms k)
| preserves_ClearInterval (h : nat) (k : Task A) :
    preserves k -> preserves (ClearInterval h k)
| preserves_AwaitGetPosition (id : string)
    (k : Settled (option LiquidityPosition) -> Task A) :
    (forall s, preserves (k s)) -> preserves (AwaitGetPosition id k)
| preserves_AwaitRebalance (id : string) (cfg : RebalanceConfig)
    (k : Settled RebalanceResult -> Task A) :
    (forall s, preserves (k s)) -> preserves (AwaitRebalance id cfg k).

(** The invariant of a world: the bot satisfies [I] and so will every bot
    that a task in flight writes. *)
Definition world_ok (w : World) : Prop :=
  I (bot (machine w)) /\ Forall (fun s => preserves (task s)) (inflight w).

End Preservation.

(** ** Example inputs *)

(** The configuration that the dashboard starts with. *)
Definition default_config : RebalanceConfig :=
  {| slippageTolerance := 1 # 2; rangeWidthPercent := 10;
     minRebalanceInterval := 300; gasBudget := 100000000;
     autoRebalance := true |}.

(** A bot right after construction, with both observers attached. *)
Definition fresh_machine : Machine :=
  {| bot := newBotService default_config true true;
     timers := []; nextTimer := 0%nat; output := [] |}.

(** A bot that monitors position "0xold". *)
Definition bot_monitoring_old : Machine :=
  with_bot (set_positionId (Some "0xold") (bot fresh_machine)) fresh_machine.

(** The same bot ten seconds after a rebalance at time 1000000. *)
Definition bot_rebalanced_recently : Machine :=
  with_bot
    (set_state (set_lastRebalanceTime (Some 1000000)
                  (state (bot bot_monitoring_old)))
       (bot bot_monitoring_old))
    bot_monitoring_old.

(** A successful result that carries the new position id "0xnew". *)
Definition result_with_new_position : RebalanceResult :=
  {| success := true; txHash := Some "0xtx"; gasCost := Some 100;
     newPositionId := Some "0xnew";
     newTickLower := Some 2400; newTickUpper := Some 2640; error := None |}.

(** A failure result, as a rejection by the ledger gives. *)
Definition result_rejected : RebalanceResult :=
  {| success := false; txHash := None; gasCost := None;
     newPositionId := None; newTickLower := None; newTickUpper := None;
     error := Some "InsufficientGas" |}.

(** An update with a negative slippage tolerance and a zero gas budget. *)
Definition out_of_range_update : PartialConfig :=
  {| new_slippageTolerance := Some (-5 # 1)%Q;
     new_rangeWidthPercent := None;
     new_minRebalanceInterval := None;
     new_gasBudget := Some 0%Q;
     new_autoRebalance := None |}.

(** A position whose current tick 1500 is inside its range. *)
Definition position_in_range : LiquidityPosition :=
  {| id := "0xpos"; poolId := "0xpool"; coinTypeA := "0x2::sui::SUI";
     coinTypeB := "0x5::usdc::USDC"; amountA := 1000; amountB := 2000;
     tickLower := 1000; tickUpper := 2000; currentTick := 1500;
     liquidity := 500000 |}.

(** The same position once the current tick has left the range. *)
Definition position_out_of_range : LiquidityPosition :=
  {| id := "0xpos"; poolId := "0xpool"; coinTypeA := "0x2::sui::SUI";
     coinTypeB := "0x5::usdc::USDC"; amountA := 0; amountB := 3000;
     tickLower := 1000; tickUpper := 2000; currentTick := 2500;
     liquidity := 500000 |}.

(** The bot starts on position "0xpos" with a 30 second interval and its
    initial check finds the price in range. *)
Definition monitoring_world : World :=
  exec (boot default_config true true)
    [ Calls (StartMonitoring "0xpos" 30000) 1000;
      Settles 0 (PositionSettled (Fulfilled (Some position_in_range))) 1200 ].

(** Then the first tick finds the price out of range and calls
    [rebalancePosition]; the ledger has not answered when the second tick
    fires, and that cycle too finds the price out of range. *)
Definition overlapping_ticks : list Event :=
  [ TimerFires 0 31200;
    Settles 0 (PositionSettled (Fulfilled (Some position_out_of_range))) 31400;
    TimerFires 0 61200;
    Settles 1 (PositionSettled (Fulfilled (Some position_out_of_range))) 61400
  ].

(** ** Histories of the bot *)

Section History.

(** A relation between an earlier and a later bot object. *)
Variable R : Bot -> Bot -> Prop.

(** [keeps_order cur t]: started on the bot [cur], every bot that [t]
    writes is related by [R] to the bot it replaces; after a ledger call
    the task goes on from whatever bot it then finds. *)
Inductive keeps_order {A : Type} : Bot -> Task A -> Prop :=
| keeps_order_Ret (cur : Bot) (a : A) : keeps_order cur (Ret a)
| keeps_order_Throw (cur : Bot) (msg : string) : keeps_order cur (Throw msg)
| keeps_order_GetBot (cur : Bot) (k : Bot -> Task A) :
    keeps_order cur (k cur) -> keeps_order cur (GetBot k)
| keeps_order_PutBot (cur b : Bot) (k : Task A) :
    R cur b -> keeps_order b k -> keeps_order cur (PutBot b k)
| keeps_order_DateNow (cur : Bot) (k : Z -> Task A) :
    (forall n, keeps_order cur (k n)) -> keeps_order cur (DateNow k)
| keeps_order_Emit (cur : Bot) (o : Output) (k : Task A) :
    keeps_order cur k -> keeps_order cur (Emit o k)
| keeps_order_SetInterval (cur : Bot) (ms : Z) (k : nat -> Task A) :
    (forall h, keeps_order cur (k h)) -> keeps_order cur (SetInterval ms k)
| keeps_order_ClearInterval (cur : Bot) (h : nat) (k : Task A) :
    keeps_order cur k -> keeps_order cur (ClearInterval h k)
| keeps_order_AwaitGetPosition (cur : Bot) (id : string)
    (k : Settled (option LiquidityPosition) -> Task A) :
    (forall s cur', keeps_order cur' (k s)) ->
    keeps_order cur (AwaitGetPosition id k)
| keeps_order_AwaitRebalance (cur : Bot) (id : string)
    (cfg : RebalanceConfig) (k : Settled RebalanceResult -> Task A) :
    (forall s cur', keeps_order cur' (k s)) ->
    keeps_order cur (AwaitRebalance id cfg k).

(** Every task in flight keeps the order from wherever it resumes. *)
Definition inflight_keep_order (w : World) : Prop :=
  Forall (fun s => forall cur, keeps_order cur (task s)) (inflight w).

End History.


(** ** CetusService: the instance and the singleton *)

Inductive Network := mainnet | testnet.

(** The fields of a [CetusService] instance that its own code reads; the
    SDK and the RPC client are collaborators. *)
Record CetusService := {
  network : Network;
  senderAddress : option string
}.

(** The constructor: [network] defaults to mainnet, and an absent or empty
    [senderAddress] is [null]. *)
Definition newCetusService
    (network : option Network) (senderAddress : option string)
    : CetusService :=
  {| network := match network with Some n => n | None => mainnet end;
     senderAddress := if truthy senderAddress then senderAddress else None |}.

(** [setSenderAddress]. *)
Definition setSenderAddress (address : string) (this : CetusService)
    : CetusService :=
  {| network := network this; senderAddress := Some address |}.

(** [getCetusService]: the module variable [cetusServiceInstance] before the
    call, then the variable after it and the instance returned. *)
Definition getCetusService
    (cetusServiceInstance : option CetusService)
    (network : option Network) (senderAddress : option string)
    : option CetusService * CetusService :=
  match cetusServiceInstance with
  | Some instance =>
    if match network with Some _ => truthy senderAddress | None => false end
    then
      let created := newCetusService network senderAddress in
      (Some created, created)
    else (Some instance, instance)
  | None =>
    let created := newCetusService network senderAddress in
    (Some created, created)
  end.

(** ** CetusService: token balances *)

(** What the RPC client returns for a coin type. *)
Record CoinMetadata := {
  symbol : string;
  decimals : Z
}.

(** An entry of [getAllBalances]. *)
Record Balance := {
  bal_coinType : string;
  totalBalance : string
}.

Record TokenBalance := {
  tb_coinType : string;
  tb_symbol : string;
  tb_decimals : Z;
  tb_balance : string
}.

(** [getCoinMetadata]: the answer of the client, [null] when it has none or
    when the call fails. *)
Definition getCoinMetadata
    (rpc : string -> Settled (option CoinMetadata)) (coinType : string)
    : option CoinMetadata :=
  match rpc coinType with
  | Fulfilled (Some metadata) =>
    Some {| symbol := symbol metadata; decimals := decimals metadata |}
  | Fulfilled None => None
  | Rejected _ => None
  end.

(** [metadata?.symbol || fallback]. *)
Definition symbol_or (metadata : option CoinMetadata) (fallback : string)
    : string :=
  match metadata with
  | Some m => if truthy (Some (symbol m)) then symbol m else fallback
  | None => fallback
  end.

(** [metadata?.decimals || 9]. *)
Definition decimals_or_9 (metadata : option CoinMetadata) : Z :=
  match metadata with
  | Some m => if truthy_num (Some (decimals m)) then decimals m else 9
  | None => 9
  end.

(** [getTokenBalances]: [balances] is what [getAllBalances] answers for the
    address, [rpc] what the client answers for each coin type. *)
Definition getTokenBalances
    (balances : Settled (list Balance))
    (rpc : string -> Settled (option CoinMetadata)) : list TokenBalance :=
  match balances with
  | Fulfilled balances =>
    map (fun balance =>
           let metadata := getCoinMetadata rpc (bal_coinType balance) in
           {| tb_coinType := bal_coinType balance;
              tb_symbol := symbol_or metadata "UNKNOWN";
              tb_decimals := decimals_or_9 metadata;
              tb_balance := totalBalance balance |})
        balances
  | Rejected _ => []
  end.

(** ** Properties of the bot, continued *)

(** A bot without a last rebalance time has counted no rebalance and no
    gas. *)
Definition books_consistent (this : Bot) : Prop :=
  lastRebalanceTime (state this) = None ->
  rebalanceCount (state this) = 0 /\ totalGasSpent (state this) = 0.

(** [kept I]: the later bot satisfies [I] if the earlier one does. *)
Definition kept (I : Bot -> Prop) (earlier later : Bot) : Prop :=
  I earlier -> I later.

(** The update that holds the fields of [first] and of [second], those of
    [second] winning: [{ ...first, ...second }]. *)
Definition override (first second : PartialConfig) : PartialConfig :=
  let pick {A} (a b : option A) :=
    match b with Some v => Some v | None => a end in
  {| new_slippageTolerance :=
       pick (new_slippageTolerance first) (new_slippageTolerance second);
     new_rangeWidthPercent :=
       pick (new_rangeWidthPercent first) (new_rangeWidthPercent second);
     new_minRebalanceInterval :=
       pick (new_minRebalanceInterval first)
            (new_minRebalanceInterval second);
     new_gasBudget := pick (new_gasBudget first) (new_gasBudget second);
     new_autoRebalance :=
       pick (new_autoRebalance first) (new_autoRebalance second) |}.

(** The update that holds no field: [{}]. *)
Definition no_update : PartialConfig :=
  {| new_slippageTolerance := None; new_rangeWidthPercent := None;
     new_minRebalanceInterval := None; new_gasBudget := None;
     new_autoRebalance := None |}.

(** ** CetusService: what [rebalancePosition] submits *)

(** The transaction that [rebalancePosition] has built when it reaches the
    submission. *)
Definition rebalanceTx
    (position : LiquidityPosition) (poolInfo : PoolInfo)
    (positionId : string) (config : RebalanceConfig) : RebalanceTx :=
  let range :=
    calculateNewTickRange (pool_currentTick poolInfo)
      (pool_tickSpacing poolInfo) (Q2R (rangeWidthPercent config)) in
  {| tx_gasBudget := gasBudget config;
     tx_removePositionId := positionId;
     tx_removePoolId := poolId position;
     tx_removeLiquidity := liquidity position;
     tx_add :=
       buildAddLiquidityTx (poolId position)
         (amountA position) (amountB position)
         (range_tickLower range) (range_tickUpper range)
         (slippageTolerance config) |}.

(** A run from construction through one scheduled rebalance: the initial
    check finds the price in range, the first tick finds it out of range
    and the ledger accepts the rebalance. *)
Definition one_rebalance_run : list Event :=
  [ Calls (StartMonitoring "0xpos" 30000) 1000;
    Settles 0 (PositionSettled (Fulfilled (Some position_in_range))) 1200;
    TimerFires 0 31200;
    Settles 0 (PositionSettled (Fulfilled (Some position_out_of_range))) 31400;
    Settles 0 (RebalanceSettled (Fulfilled result_with_new_position)) 31600
  ].

(** A bot whose [startMonitoring] waits for its initial check. *)
Definition bot_starting : Machine :=
  fst (run (startMonitoring "0xpos" 30000) 1000 fresh_machine).

(** ** Proof tools *)

(** Evaluates a task on a symbolic machine and leaves the arithmetic of the
    interval gate folded. *)
Ltac simp_task :=
  cbn -[Qle_bool Qceiling Qmult Qminus Qdiv inject_Z show String.append
        Z.sub isPriceOutOfRange truthy_num].

(** * Theorems *)

(** ** Rounding of idealised doubles *)

Lemma Int_part_bounds (x : R) :
  (IZR (Int_part x) <= x < IZR (Int_part x) + 1)%R.
Proof.
  destruct (base_Int_part x) as [H1 H2]. split; lra.
Qed.

(** On a quotient of integers [Math.floor] is the floor division of [Z]. *)
Lemma floor_div (a s : Z) :
  0 < s -> Math.floor (IZR a / IZR s)%R = a / s.
Proof.
  intros Hs. unfold Math.floor. symmetry. apply Int_part_spec.
  assert (HsR : (0 < IZR s)%R) by (apply IZR_lt; exact Hs).
  pose proof (Z.mul_div_le a s Hs) as Hlo.
  pose proof (Z.mul_succ_div_gt a s Hs) as Hhi.
  apply IZR_le in Hlo. apply IZR_lt in Hhi.
  rewrite mult_IZR in Hlo. rewrite mult_IZR, succ_IZR in Hhi.
  assert (E : (IZR a / IZR s * IZR s = IZR a)%R) by (field; lra).
  split.
  - apply Rmult_lt_reg_r with (IZR s); [exact HsR|]. nra.
  - apply Rmult_le_reg_r with (IZR s); [exact HsR|]. nra.
Qed.

(** On a quotient of integers [Math.ceil] is the ceiling division of [Z]. *)
Lemma ceil_div (a s : Z) :
  0 < s -> Math.ceil (IZR a / IZR s)%R = - ((- a) / s).
Proof.
  intros Hs. unfold Math.ceil.
  assert (HsR : (0 < IZR s)%R) by (apply IZR_lt; exact Hs).
  replace (- (IZR a / IZR s))%R with (IZR (- a) / IZR s)%R
    by (rewrite opp_IZR; field; lra).
  f_equal. apply (floor_div (- a) s Hs).
Qed.

Lemma round_nonneg (x : R) : (0 <= x)%R -> 0 <= Math.round x.
Proof.
  intros Hx. unfold Math.round.
  destruct (Int_part_bounds (x + / 2)) as [_ Hhi].
  apply le_IZR. 
  assert (H : (-1 < IZR (Int_part (x + / 2)))%R) by lra.
  apply lt_IZR in H. apply IZR_le. lia.
Qed.

Lemma round_small (x : R) : (0 <= x < / 2)%R -> Math.round x = 0.
Proof.
  intros Hx. unfold Math.round. symmetry. apply Int_part_spec. simpl. lra.
Qed.

(** [Math.round] of half an integer. *)
Lemma round_half (n : Z) : Math.round (IZR n / 2)%R = (n + 1) / 2.
Proof.
  unfold Math.round.
  replace (IZR n / 2 + / 2)%R with (IZR (n + 1) / IZR 2)%R
    by (rewrite plus_IZR; simpl; field).
  apply (floor_div (n + 1) 2). lia.
Qed.

Lemma ln_nonneg (x : R) : (1 <= x)%R -> (0 <= ln x)%R.
Proof.
  intros [H | H].
  - rewrite <- ln_1. left. apply ln_increasing; lra.
  - rewrite <- H, ln_1. lra.
Qed.

Lemma ln_upper (x : R) : (0 < x)%R -> (ln (1 + x) < x)%R.
Proof.
  intros Hx. rewrite <- (ln_exp x) at 2.
  apply ln_increasing; [lra|]. apply exp_ineq1. lra.
Qed.

Lemma ln_lower (x : R) : (0 < x)%R -> (x / (1 + x) < ln (1 + x))%R.
Proof.
  intros Hx.
  assert (Hy : (1 + - (x / (1 + x)) < exp (- (x / (1 + x))))%R).
  { apply exp_ineq1. assert (0 < x / (1 + x))%R.
    { apply Rdiv_lt_0_compat; lra. } lra. }
  replace (1 + - (x / (1 + x)))%R with (/ (1 + x))%R in Hy by (field; lra).
  assert (Hp : (0 < / (1 + x))%R) by (apply Rinv_0_lt_compat; lra).
  apply ln_increasing in Hy; [|exact Hp].
  rewrite ln_exp, ln_Rinv in Hy by lra. lra.
Qed.

(** The half width is never negative for a positive percentage. *)
Lemma halfRangeOf_nonneg (w : R) : (0 < w)%R -> 0 <= halfRangeOf w.
Proof.
  intros Hw. unfold halfRangeOf.
  apply round_nonneg.
  assert (H : 0 <= Math.round (Math.log (1 + w / 100)
                               / Math.log (10001 / 10000))%R).
  { apply round_nonneg. unfold Math.log.
    apply Rmult_le_pos.
    - apply ln_nonneg. lra.
    - left. apply Rinv_0_lt_compat. rewrite <- ln_1. apply ln_increasing; lra. }
  apply IZR_le in H. lra.
Qed.

(** A width of a thousandth of a percent is less than half a tick. *)
Lemma halfRangeOf_tiny : halfRangeOf (1 / 1000) = 0.
Proof.
  unfold halfRangeOf.
  assert (E : Math.round (Math.log (1 + 1 / 1000 / 100)
                          / Math.log (10001 / 10000))%R = 0).
  { apply round_small. unfold Math.log.
    replace (1 + 1 / 1000 / 100)%R with (1 + 1 / 100000)%R by field.
    replace (10001 / 10000)%R with (1 + 1 / 10000)%R by field.
    pose proof (ln_upper (1 / 100000)) as Hu.
    pose proof (ln_lower (1 / 10000)) as Hl.
    assert (Hn : (0 <= ln (1 + 1 / 100000))%R) by (apply ln_nonneg; lra).
    assert (Hd : (1 / 10001 < ln (1 + 1 / 10000))%R).
    { replace (1 / 10001)%R with (1 / 10000 / (1 + 1 / 10000))%R by field.
      apply Hl. lra. }
    assert (Hu' : (ln (1 + 1 / 100000) < 1 / 100000)%R) by (apply Hu; lra).
    assert (Hdpos : (0 < ln (1 + 1 / 10000))%R) by lra.
    split.
    - apply Rmult_le_pos; [exact Hn|]. left.
      apply Rinv_0_lt_compat. exact Hdpos.
    - apply Rmult_lt_reg_r with (ln (1 + 1 / 10000))%R; [exact Hdpos|].
      unfold Rdiv at 1. rewrite Rmult_assoc, Rinv_l by lra. lra. }
  rewrite E. apply round_small. simpl. lra.
Qed.

(** [calculateNewTickRange] over [Z]: the bounds are the floor and ceiling
    multiples of the spacing around the intended span. *)
Lemma calculateNewTickRange_Z (c s : Z) (w : R) :
  0 < s ->
  calculateNewTickRange c s w =
  {| range_tickLower := (c - halfRangeOf w) / s * s;
     range_tickUpper := - ((- (c + halfRangeOf w)) / s) * s |}.
Proof.
  intros Hs. unfold calculateNewTickRange.
  fold (halfRangeOf w).
  rewrite floor_div, ceil_div by exact Hs. reflexivity.
Qed.

(** ** The new tick range (C2) *)

(** C2, as the code has it.  For every integer current tick, every positive
    integer tick spacing and every positive width percentage,
    [calculateNewTickRange] returns bounds that are both multiples of the
    spacing, that contain the intended span around the current tick (so
    [tickLower <= currentTick <= tickUpper]), and that are distinct unless
    the half width rounds to zero ticks and the current tick is itself a
    multiple of the spacing; in that case the range is returned collapsed on
    the current tick: nothing widens it. *)
Theorem calculateNewTickRange_aligned_and_containing
    (currentTick tickSpacing : Z) (rangeWidthPercent : R) :
  0 < tickSpacing ->
  (0 < rangeWidthPercent)%R ->
  let r := calculateNewTickRange currentTick tickSpacing rangeWidthPercent in
  let h := halfRangeOf rangeWidthPercent in
  (tickSpacing | range_tickLower r) /\
  (tickSpacing | range_tickUpper r) /\
  0 <= h /\
  range_tickLower r <= currentTick - h /\
  currentTick + h <= range_tickUpper r /\
  range_tickLower r <= currentTick <= range_tickUpper r /\
  (range_tickLower r < range_tickUpper r <->
   ~ (h = 0 /\ (tickSpacing | currentTick))) /\
  (h = 0 -> (tickSpacing | currentTick) ->
   range_tickLower r = currentTick /\ range_tickUpper r = currentTick).
Proof.
  intros Hs Hw r h. subst r.
  rewrite (calculateNewTickRange_Z currentTick tickSpacing rangeWidthPercent
             Hs).
  fold h. simpl.
  pose proof (halfRangeOf_nonneg rangeWidthPercent Hw) as Hh. fold h in Hh.
  pose proof (Z.mul_div_le (currentTick - h) tickSpacing Hs) as Hlo.
  pose proof (Z.mul_div_le (- (currentTick + h)) tickSpacing Hs) as Hhi.
  pose proof (Z.mul_succ_div_gt (currentTick - h) tickSpacing Hs) as Hlo'.
  pose proof (Z.mul_succ_div_gt (- (currentTick + h)) tickSpacing Hs) as Hhi'.
  set (ql := (currentTick - h) / tickSpacing) in *.
  set (qu := (- (currentTick + h)) / tickSpacing) in *.
  assert (Hcollapse :
    h = 0 -> (tickSpacing | currentTick) ->
    ql * tickSpacing = currentTick /\ - qu * tickSpacing = currentTick).
  { intros H0 [k Hk]. subst ql qu. rewrite H0, Hk.
    replace (k * tickSpacing - 0) with (k * tickSpacing) by lia.
    replace (- (k * tickSpacing + 0)) with (- k * tickSpacing) by lia.
    rewrite !Z.div_mul by lia. lia. }
  repeat split.
  - exists ql. reflexivity.
  - exists (- qu). reflexivity.
  - exact Hh.
  - lia.
  - lia.
  - lia.
  - lia.
  - intros Hlt [H0 Hd]. destruct (Hcollapse H0 Hd). lia.
  - intros Hn.
    destruct (Z.eq_dec h 0) as [H0 | H0]; [|lia].
    destruct (Z.eq_dec (ql * tickSpacing) (- qu * tickSpacing)) as [E | E];
      [|lia].
    exfalso. apply Hn. split; [exact H0|].
    exists ql. lia.
  - apply Hcollapse; assumption.
  - apply Hcollapse; assumption.
Qed.

(** The scenario of the specification: width 10 percent, spacing 60,
    current tick 1234. *)
Lemma calculateNewTickRange_aligned_and_containing_witness :
  0 < 60 /\ (0 < 10)%R /\
  (60 | range_tickLower (calculateNewTickRange 1234 60 10)) /\
  (60 | range_tickUpper (calculateNewTickRange 1234 60 10)) /\
  range_tickLower (calculateNewTickRange 1234 60 10) <= 1234
    <= range_tickUpper (calculateNewTickRange 1234 60 10).
Proof.
  assert (Hs : 0 < 60) by lia.
  assert (Hw : (0 < 10)%R) by lra.
  split; [exact Hs|]. split; [exact Hw|].
  destruct (calculateNewTickRange_aligned_and_containing 1234 60 10 Hs Hw)
    as (Hl & Hu & _ & _ & _ & Hc & _).
  split; [exact Hl|]. split; [exact Hu|]. exact Hc.
Defined.

(** C2, the claim as stated fails: at current tick 0 with spacing 60 a
    width of 0.001 percent gives the collapsed range [0, 0]. *)
Lemma calculateNewTickRange_collapses :
  0 < 60 /\ (0 < 1 / 1000)%R /\
  calculateNewTickRange 0 60 (1 / 1000) =
    {| range_tickLower := 0; range_tickUpper := 0 |} /\
  ~ (range_tickLower (calculateNewTickRange 0 60 (1 / 1000))
     < range_tickUpper (calculateNewTickRange 0 60 (1 / 1000))).
Proof.
  assert (E : calculateNewTickRange 0 60 (1 / 1000) =
              {| range_tickLower := 0; range_tickUpper := 0 |}).
  { rewrite calculateNewTickRange_Z by lia.
    rewrite halfRangeOf_tiny. reflexivity. }
  repeat split; [lra | exact E |].
  rewrite E. simpl. lia.
Qed.

(** ** Rounding of BigNumbers *)

Lemma Qle_bool_false (a b : Q) : Qle_bool a b = false -> (b < a)%Q.
Proof.
  intros H. apply Qnot_le_lt. intros Hle.
  apply Qle_bool_iff in Hle. congruence.
Qed.

Lemma BN_lt_iff (a b : Q) : BN.lt a b = true <-> (a < b)%Q.
Proof.
  unfold BN.lt. destruct (Qle_bool b a) eqn:E; simpl.
  - apply Qle_bool_iff in E. split; [discriminate|]. intros H.
    exfalso. apply (Qlt_not_le _ _ H E).
  - apply Qle_bool_false in E. tauto.
Qed.

Lemma BN_gt_iff (a b : Q) : BN.gt a b = true <-> (b < a)%Q.
Proof.
  unfold BN.gt. destruct (Qle_bool a b) eqn:E; simpl.
  - apply Qle_bool_iff in E. split; [discriminate|]. intros H.
    exfalso. apply (Qlt_not_le _ _ H E).
  - apply Qle_bool_false in E. tauto.
Qed.

(** ROUND_HALF_UP is within a half of its argument. *)
Lemma round_half_up_near (q : Q) :
  (q - (1 # 2) <= inject_Z (BN.round_half_up q) <= q + (1 # 2))%Q.
Proof.
  unfold BN.round_half_up. destruct (Qle_bool 0 q) eqn:E.
  - pose proof (Qfloor_le (q + (1 # 2))) as H1.
    pose proof (Qlt_floor (q + (1 # 2))) as H2.
    rewrite inject_Z_plus in H2. change (inject_Z 1) with 1%Q in H2.
    set (z := inject_Z (Qfloor (q + (1 # 2)))) in *. split; lra.
  - pose proof (Qle_ceiling (q - (1 # 2))) as H1.
    pose proof (Qceiling_lt (q - (1 # 2))) as H2.
    unfold Z.sub in H2. rewrite inject_Z_plus in H2.
    change (inject_Z (- (1))) with (- (1))%Q in H2.
    set (z := inject_Z (Qceiling (q - (1 # 2)))) in *. split; lra.
Qed.

Lemma round_half_up_nonneg (q : Q) :
  (0 <= q)%Q -> BN.round_half_up q = Qfloor (q + (1 # 2)) /\
                0 <= BN.round_half_up q.
Proof.
  intros Hq. unfold BN.round_half_up.
  apply Qle_bool_iff in Hq. rewrite Hq. apply Qle_bool_iff in Hq.
  split; [reflexivity|].
  change 0 with (Qfloor 0). apply Qfloor_resp_le. lra.
Qed.

Lemma round_half_up_neg (q : Q) :
  (q < 0)%Q -> BN.round_half_up q = Qceiling (q - (1 # 2)) /\
               BN.round_half_up q <= 0.
Proof.
  intros Hq. unfold BN.round_half_up.
  destruct (Qle_bool 0 q) eqn:E.
  - apply Qle_bool_iff in E. lra.
  - split; [reflexivity|].
    change 0 with (Qceiling 0). apply Qceiling_resp_le. lra.
Qed.

Lemma scale_pos : (0 < BN.scale)%Q.
Proof. reflexivity. Qed.

(** A division by a non-zero BigNumber is finite, within half a unit of the
    twentieth decimal place of the exact quotient, and keeps the sign of a
    non-negative quotient. *)
Lemma BN_div_finite (a b : Q) :
  ~ (b == 0)%Q ->
  exists q : Q,
    BN.div a b = Some q /\
    (exists n : Z, n = BN.round_half_up (a / b * BN.scale)
                   /\ q = (inject_Z n / BN.scale)%Q) /\
    (a / b - (1 # 2) / BN.scale <= q <= a / b + (1 # 2) / BN.scale)%Q /\
    ((0 <= a / b)%Q -> (0 <= q)%Q).
Proof.
  intros Hb. unfold BN.div.
  destruct (Qeq_bool b 0) eqn:E.
  - apply Qeq_bool_iff in E. contradiction.
  - eexists. split; [reflexivity|].
    pose proof scale_pos as Hs.
    pose proof (round_half_up_near (a / b * BN.scale)) as [H1 H2].
    set (n := BN.round_half_up (a / b * BN.scale)) in *.
    assert (Hq : (inject_Z n / BN.scale * BN.scale == inject_Z n)%Q)
      by (field; lra).
    assert (Hh : ((1 # 2) / BN.scale * BN.scale == (1 # 2))%Q)
      by (field; lra).
    split; [exists n; split; reflexivity|].
    split; [split|].
    + apply Qmult_le_r with BN.scale; [exact Hs|].
      rewrite Hq. setoid_replace ((a / b - (1 # 2) / BN.scale) * BN.scale)%Q
        with (a / b * BN.scale - (1 # 2) / BN.scale * BN.scale)%Q by ring.
      rewrite Hh. exact H1.
    + apply Qmult_le_r with BN.scale; [exact Hs|].
      rewrite Hq. setoid_replace ((a / b + (1 # 2) / BN.scale) * BN.scale)%Q
        with (a / b * BN.scale + (1 # 2) / BN.scale * BN.scale)%Q by ring.
      rewrite Hh. exact H2.
    + intros Hab.
      assert (Hn : 0 <= n).
      { apply round_half_up_nonneg. apply Qmult_le_0_compat; lra. }
      apply Qle_shift_div_l; [exact Hs|].
      rewrite Qmult_0_l. change 0%Q with (inject_Z 0).
      rewrite <- Zle_Qle. exact Hn.
Qed.

(** ** Token amounts (C3) *)

(** C3, as the code has it.  For every non-negative liquidity and positive
    square-root prices with [sqrtPriceLower < sqrtPriceUpper],
    [calculateTokenAmounts] makes the three-way split of the claim with the
    claim's formulas (below the range all in token A, above it all in token
    B, inside it both), and both amounts are finite and non-negative; the
    one division is a BigNumber division, which rounds the quotient to 20
    decimal places, a half away from zero: amount A is a multiple of
    [10^-20] within half such a unit of the exact quotient, and amount B is
    the exact product. *)
Theorem calculateTokenAmounts_three_way
    (liquidity sqrtPriceCurrent sqrtPriceLower sqrtPriceUpper : Q) :
  (0 <= liquidity)%Q ->
  (0 < sqrtPriceCurrent)%Q ->
  (0 < sqrtPriceLower)%Q ->
  (sqrtPriceLower < sqrtPriceUpper)%Q ->
  let r := calculateTokenAmounts liquidity sqrtPriceCurrent
             sqrtPriceLower sqrtPriceUpper in
  let exactA :=
    (if BN.lt sqrtPriceCurrent sqrtPriceLower then
       liquidity * (sqrtPriceUpper - sqrtPriceLower)
       / (sqrtPriceUpper * sqrtPriceLower)
     else if BN.gt sqrtPriceCurrent sqrtPriceUpper then 0
     else liquidity * (sqrtPriceUpper - sqrtPriceCurrent)
          / (sqrtPriceUpper * sqrtPriceCurrent))%Q in
  ((sqrtPriceCurrent < sqrtPriceLower)%Q ->
     out_amountA r =
       BN.div (liquidity * (sqrtPriceUpper - sqrtPriceLower))%Q
              (sqrtPriceUpper * sqrtPriceLower)%Q /\
     out_amountB r = Some 0%Q) /\
  ((sqrtPriceUpper < sqrtPriceCurrent)%Q ->
     out_amountA r = Some 0%Q /\
     out_amountB r =
       Some (liquidity * (sqrtPriceUpper - sqrtPriceLower))%Q) /\
  ((sqrtPriceLower <= sqrtPriceCurrent <= sqrtPriceUpper)%Q ->
     out_amountA r =
       BN.div (liquidity * (sqrtPriceUpper - sqrtPriceCurrent))%Q
              (sqrtPriceUpper * sqrtPriceCurrent)%Q /\
     out_amountB r =
       Some (liquidity * (sqrtPriceCurrent - sqrtPriceLower))%Q) /\
  exists a b : Q,
    out_amountA r = Some a /\ out_amountB r = Some b /\
    (0 <= a)%Q /\ (0 <= b)%Q /\
    (exists n : Z, 0 <= n /\ (a == inject_Z n / BN.scale)%Q) /\
    (exactA - (1 # 2) / BN.scale <= a <= exactA + (1 # 2) / BN.scale)%Q.
Proof.
  intros HL Hc Hlo Hlt r exactA. subst r exactA.
  unfold calculateTokenAmounts, BN.times, BN.minus.
  pose proof scale_pos as Hs.
  assert (Hhalf : (0 <= (1 # 2) / BN.scale)%Q).
  { apply Qle_shift_div_l; [exact Hs|]. lra. }
  destruct (BN.lt sqrtPriceCurrent sqrtPriceLower) eqn:E1.
  - (* below the range *)
    apply BN_lt_iff in E1. simpl.
    assert (Hd : (0 < sqrtPriceUpper * sqrtPriceLower)%Q)
      by (apply Qmult_lt_0_compat; lra).
    assert (Hn : (0 <= liquidity * (sqrtPriceUpper - sqrtPriceLower))%Q)
      by (apply Qmult_le_0_compat; lra).
    destruct (BN_div_finite
                (liquidity * (sqrtPriceUpper - sqrtPriceLower))%Q
                (sqrtPriceUpper * sqrtPriceLower)%Q)
      as (q & Eq & (n & En & Eqn) & Hnear & Hsign); [lra|].
    assert (Hquot : (0 <= liquidity * (sqrtPriceUpper - sqrtPriceLower)
                          / (sqrtPriceUpper * sqrtPriceLower))%Q).
    { apply Qle_shift_div_l; [exact Hd|]. lra. }
    split; [intros _; split; reflexivity|].
    split; [intros H; lra|].
    split; [intros H; lra|].
    exists q, 0%Q. rewrite Eq.
    repeat split; try reflexivity; try tauto; try lra.
    exists n. split.
    + rewrite En. apply round_half_up_nonneg.
      apply Qmult_le_0_compat; lra.
    + rewrite Eqn. reflexivity.
  - assert (H1 : ~ (sqrtPriceCurrent < sqrtPriceLower)%Q).
    { intros H. apply BN_lt_iff in H. congruence. }
    destruct (BN.gt sqrtPriceCurrent sqrtPriceUpper) eqn:E2.
    + (* above the range *)
      apply BN_gt_iff in E2. simpl.
      split; [intros H; contradiction|].
      split; [intros _; split; reflexivity|].
      split; [intros H; lra|].
      exists 0%Q, (liquidity * (sqrtPriceUpper - sqrtPriceLower))%Q.
      repeat split; try reflexivity; try lra.
      * apply Qmult_le_0_compat; lra.
      * exists 0. split; [lia|]. reflexivity.
    + (* inside the range *)
      assert (H2 : ~ (sqrtPriceUpper < sqrtPriceCurrent)%Q).
      { intros H. apply BN_gt_iff in H. congruence. }
      simpl.
      assert (Hd : (0 < sqrtPriceUpper * sqrtPriceCurrent)%Q)
        by (apply Qmult_lt_0_compat; lra).
      assert (Hn : (0 <= liquidity * (sqrtPriceUpper - sqrtPriceCurrent))%Q)
        by (apply Qmult_le_0_compat; lra).
      destruct (BN_div_finite
                  (liquidity * (sqrtPriceUpper - sqrtPriceCurrent))%Q
                  (sqrtPriceUpper * sqrtPriceCurrent)%Q)
        as (q & Eq & (n & En & Eqn) & Hnear & Hsign); [lra|].
      assert (Hquot : (0 <= liquidity * (sqrtPriceUpper - sqrtPriceCurrent)
                            / (sqrtPriceUpper * sqrtPriceCurrent))%Q).
      { apply Qle_shift_div_l; [exact Hd|]. lra. }
      split; [intros H; contradiction|].
      split; [intros H; contradiction|].
      split; [intros _; split; reflexivity|].
      exists q, (liquidity * (sqrtPriceCurrent - sqrtPriceLower))%Q.
      rewrite Eq.
      repeat split; try reflexivity; try tauto; try lra.
      * apply Qmult_le_0_compat; lra.
      * exists n. split.
        -- rewrite En. apply round_half_up_nonneg.
           apply Qmult_le_0_compat; lra.
        -- rewrite Eqn. reflexivity.
Qed.

Lemma calculateTokenAmounts_three_way_witness :
  (0 <= 1)%Q /\ (0 < 1)%Q /\ (0 < 2)%Q /\ (2 < 3)%Q /\
  exists a b : Q,
    out_amountA (calculateTokenAmounts 1 1 2 3) = Some a /\
    out_amountB (calculateTokenAmounts 1 1 2 3) = Some b /\
    (0 <= a)%Q /\ (0 <= b)%Q.
Proof.
  assert (H0 : (0 <= 1)%Q) by (vm_compute; discriminate).
  assert (H1 : (0 < 1)%Q) by reflexivity.
  assert (H2 : (0 < 2)%Q) by reflexivity.
  assert (H3 : (2 < 3)%Q) by reflexivity.
  repeat (split; [assumption|]).
  destruct (calculateTokenAmounts_three_way 1 1 2 3 H0 H1 H2 H3)
    as (_ & _ & _ & a & b & Ha & Hb & Hpa & Hpb & _).
  exists a, b. repeat split; assumption.
Defined.

(** C3, the claim as stated fails: with liquidity 1 and the current price
    below the range [2, 3] the division leaves 0.16666666666666666667 (one
    sixth rounded up at the twentieth place), not the integer 0 that a
    truncating division would give. *)
Lemma calculateTokenAmounts_not_truncated :
  (0 <= 1)%Q /\ (0 < 1)%Q /\ (0 < 2)%Q /\ (2 < 3)%Q /\
  out_amountA (calculateTokenAmounts 1 1 2 3) =
    Some (16666666666666666667 # 100000000000000000000) /\
  ~ (exists z : Z,
       ((16666666666666666667 # 100000000000000000000) == inject_Z z)%Q).
Proof.
  split; [vm_compute; discriminate|].
  do 3 (split; [reflexivity|]).
  split; [vm_compute; reflexivity|].
  intros [z Hz]. unfold Qeq in Hz. simpl in Hz. lia.
Qed.

(** ** The slippage minimum (C4) *)




(** ** The bot: stopping (C10) *)

(** A position id that a guard [if (!this.positionId)] lets through. *)
Lemma truthy_Some (p : option string) :
  truthy p = true -> exists id, p = Some id /\ show_id p = id /\ id <> "".
Proof.
  destruct p as [[|c s]|]; simpl; try discriminate.
  intros _. exists (String c s). repeat split. discriminate.
Qed.

(** C10.  [stopMonitoring] clears the interval timer and the running flag
    and writes one status line; the monitored position id, the counters, the
    last rebalance time, the error log and the configuration are as before.
    So afterwards [getPositionId] returns the same id, and a
    [triggerRebalance] on the stopped bot still calls [rebalancePosition]
    for that position with the live configuration. *)
Theorem stopMonitoring_frame (m : Machine) (now : Z) :
  let m' := fst (run stopMonitoring now m) in
  snd (run stopMonitoring now m) = Ret tt /\
  isRunning (state (bot m')) = false /\
  monitoringInterval (bot m') = None /\
  (forall h, monitoringInterval (bot m) = Some h -> ~ In h (timers m')) /\
  positionId (bot m') = positionId (bot m) /\
  rebalanceCount (state (bot m')) = rebalanceCount (state (bot m)) /\
  totalGasSpent (state (bot m')) = totalGasSpent (state (bot m)) /\
  lastRebalanceTime (state (bot m')) = lastRebalanceTime (state (bot m)) /\
  errors (state (bot m')) = errors (state (bot m)) /\
  config (bot m') = config (bot m) /\
  getPositionId (bot m') = getPositionId (bot m) /\
  (forall later,
     truthy (positionId (bot m)) = true ->
     request (snd (run triggerRebalance later m')) =
       Some (RebalanceCall (show_id (positionId (bot m))) (config (bot m)))).
Proof.
  destruct m as [[cfg st mi pid osu orb] tm nt out].
  destruct mi as [h|]; destruct osu; cbn;
    (repeat split; try reflexivity;
     [ intros h' E; try discriminate; injection E as <-;
       apply remove_In
     | intros later Hp; destruct pid as [[|c s]|]; try discriminate;
       reflexivity ]).
Qed.

(** ** The bot: the two rebalance paths (C1, C7) *)

(** The scheduled path: when a successful result carries a new position id,
    [executeRebalance] makes it the monitored id. *)
Lemma executeRebalance_adopts_new_position
    (m : Machine) (now : Z) (r : RebalanceResult) :
  truthy (positionId (bot m)) = true ->
  success r = true ->
  truthy (newPositionId r) = true ->
  request (snd (run executeRebalance now m)) =
    Some (RebalanceCall (show_id (positionId (bot m))) (config (bot m))) /\
  forall (m2 : Machine) (later : Z),
    let end2 := settle (snd (run executeRebalance now m))
                  (RebalanceSettled (Fulfilled r)) later m2 in
    snd end2 = Ret tt /\
    positionId (bot (fst end2)) = newPositionId r.
Proof.
  intros Hp Hs Hn.
  destruct m as [[cfg st mi pid osu orb] tm nt out].
  destruct pid as [[|c s]|]; try discriminate.
  destruct r as [ok tx gas npid nlo nup err]. simpl in Hs, Hn. subst ok.
  destruct npid as [[|c' s']|]; try discriminate.
  split; [destruct osu; reflexivity|].
  intros [[cfg2 st2 mi2 pid2 osu2 orb2] tm2 nt2 out2] later.
  destruct osu; destruct gas; destruct osu2; destruct orb2;
    cbn; split; reflexivity.
Qed.

(** The manual path never writes the monitored id: whatever the result,
    [triggerRebalance] leaves [positionId] as it finds it. *)
Lemma triggerRebalance_keeps_position
    (m : Machine) (now : Z) (r : RebalanceResult) :
  truthy (positionId (bot m)) = true ->
  request (snd (run triggerRebalance now m)) =
    Some (RebalanceCall (show_id (positionId (bot m))) (config (bot m))) /\
  forall (m2 : Machine) (later : Z),
    let end2 := settle (snd (run triggerRebalance now m))
                  (RebalanceSettled (Fulfilled r)) later m2 in
    snd end2 = Ret r /\
    positionId (bot (fst end2)) = positionId (bot m2).
Proof.
  intros Hp.
  destruct m as [[cfg st mi pid osu orb] tm nt out].
  destruct pid as [[|c s]|]; try discriminate.
  split; [destruct osu; reflexivity|].
  intros [[cfg2 st2 mi2 pid2 osu2 orb2] tm2 nt2 out2] later.
  destruct r as [ok tx gas npid nlo nup err].
  destruct osu; destruct ok; destruct gas; destruct orb2;
    cbn; split; reflexivity.
Qed.

(** C1, evaluated on both paths.  The ledger answers the rebalance of
    position "0xold" with a successful result that carries "0xnew": after
    the scheduled [executeRebalance] the bot monitors "0xnew", after the
    manual [triggerRebalance] it still monitors "0xold", although the
    counters were updated and that same result was returned. *)
Theorem triggerRebalance_ignores_new_position :
  positionId
    (bot (fst (play executeRebalance
                 [(RebalanceSettled (Fulfilled result_with_new_position),
                   2000)] 1000 bot_monitoring_old)))
  = Some "0xnew" /\
  snd (play triggerRebalance
         [(RebalanceSettled (Fulfilled result_with_new_position), 2000)]
         1000 bot_monitoring_old)
  = Ret result_with_new_position /\
  rebalanceCount
    (state (bot (fst (play triggerRebalance
                        [(RebalanceSettled
                            (Fulfilled result_with_new_position), 2000)]
                        1000 bot_monitoring_old))))
  = 1 /\
  positionId
    (bot (fst (play triggerRebalance
                 [(RebalanceSettled (Fulfilled result_with_new_position),
                   2000)] 1000 bot_monitoring_old)))
  = Some "0xold".
Proof.
  repeat split; vm_compute; reflexivity.
Qed.

(** Every failure result of [rebalancePosition] carries an error message. *)
Lemma rebalancePosition_failure_has_error
    (senderAddress : option string) (position : option LiquidityPosition)
    (poolInfo : option PoolInfo) (submit : RebalanceTx -> Settled ExecResult)
    (positionId : string) (config : RebalanceConfig) :
  success (rebalancePosition senderAddress position poolInfo submit
             positionId config) = false ->
  exists msg,
    error (rebalancePosition senderAddress position poolInfo submit
             positionId config) = Some msg.
Proof.
  unfold rebalancePosition.
  destruct (negb (truthy senderAddress)); [eexists; reflexivity|].
  destruct position as [p|]; [|eexists; reflexivity].
  destruct (negb (isPriceOutOfRange p)); [eexists; reflexivity|].
  destruct poolInfo as [pool|]; [|eexists; reflexivity].
  destruct (submit _); simpl; [discriminate|]. eexists; reflexivity.
Qed.



(** ** The bot: the configuration update (C8) *)

(** C8, as the code has it.  For every partial update, [updateConfig]
    replaces each field that the update holds by the value given, whatever
    the value, and keeps each field that the update does not hold; it
    validates nothing, rejects nothing and clamps nothing, and it touches
    neither the bot state nor the monitored position. *)
Theorem updateConfig_merges_without_validation
    (m : Machine) (now : Z) (newConfig : PartialConfig) :
  let m' := fst (run (updateConfig newConfig) now m) in
  let pick {A} (new : option A) (old now_ : A) :=
    match new with Some v => now_ = v | None => now_ = old end in
  snd (run (updateConfig newConfig) now m) = Ret tt /\
  config (bot m') = spread (config (bot m)) newConfig /\
  pick (new_slippageTolerance newConfig)
       (slippageTolerance (config (bot m)))
       (slippageTolerance (config (bot m'))) /\
  pick (new_rangeWidthPercent newConfig)
       (rangeWidthPercent (config (bot m)))
       (rangeWidthPercent (config (bot m'))) /\
  pick (new_minRebalanceInterval newConfig)
       (minRebalanceInterval (config (bot m)))
       (minRebalanceInterval (config (bot m'))) /\
  pick (new_gasBudget newConfig)
       (gasBudget (config (bot m))) (gasBudget (config (bot m'))) /\
  pick (new_autoRebalance newConfig)
       (autoRebalance (config (bot m))) (autoRebalance (config (bot m'))) /\
  state (bot m') = state (bot m) /\
  positionId (bot m') = positionId (bot m).
Proof.
  destruct m as [[cfg st mi pid osu orb] tm nt out].
  destruct newConfig as [a b c d e].
  destruct osu; cbn;
    (repeat split; try reflexivity;
     [destruct a | destruct b | destruct c | destruct d | destruct e];
     reflexivity).
Qed.

(** C8, the claim as stated fails: an update with a slippage tolerance of
    -5 and a gas budget of 0 is applied, and the live configuration holds
    both values afterwards. *)
Lemma updateConfig_accepts_out_of_range :
  ~ (0 < -5 # 1)%Q /\ ~ (0 < 0)%Q /\
  snd (run (updateConfig out_of_range_update) 1000 fresh_machine) = Ret tt /\
  slippageTolerance
    (config (bot (fst (run (updateConfig out_of_range_update) 1000
                         fresh_machine)))) = (-5 # 1)%Q /\
  gasBudget
    (config (bot (fst (run (updateConfig out_of_range_update) 1000
                         fresh_machine)))) = 0%Q /\
  config (bot (fst (run (updateConfig out_of_range_update) 1000
                      fresh_machine)))
    <> config (bot fresh_machine).
Proof.
  split; [intros H; discriminate H|].
  split; [intros H; discriminate H|].
  do 3 (split; [reflexivity|]).
  intros E. discriminate E.
Qed.

(** ** The bot: the rebalance check (C5) *)


(** ** Invariants of the bot object *)

Lemma Forall_drop_nth {A : Type} (P : A -> Prop) (i : nat) (l : list A) :
  Forall P l -> Forall P (drop_nth i l).
Proof.
  intros H. revert i. induction H as [|x l Hx Hl IH]; intros i.
  - destruct i; constructor.
  - destruct i as [|i]; unfold drop_nth in *; simpl.
    + exact Hl.
    + constructor; [exact Hx | apply IH].
Qed.

Section PreservationFacts.

Variable I : Bot -> Prop.
Variable C : Z -> Prop.

Lemma preserves_bind {A B : Type} (t : Task A) (f : A -> Task B) :
  preserves I C t -> (forall a, preserves I C (f a)) ->
  preserves I C (bind t f).
Proof.
  intros Ht Hf. induction Ht; simpl; try (constructor; auto); auto.
Qed.

Lemma preserves_catch {A : Type} (t : Task A) (h : string -> Task A) :
  preserves I C t -> (forall msg, preserves I C (h msg)) ->
  preserves I C (catch t h).
Proof.
  intros Ht Hh. induction Ht; simpl; try (constructor; auto); auto.
Qed.

Lemma preserves_run {A : Type} (t : Task A) (now : Z) (m : Machine) :
  preserves I C t -> C now -> I (bot m) ->
  I (bot (fst (run t now m))) /\ preserves I C (snd (run t now m)).
Proof.
  intros Ht Hc. revert m.
  induction Ht; intros m Hm; simpl; auto using @preserves.
Qed.

Lemma preserves_resume {A : Type} (t t' : Task A) (r : Response) :
  preserves I C t -> resume t r = Some t' -> preserves I C t'.
Proof.
  intros Ht. destruct Ht; destruct r; simpl; try discriminate;
    intros E; injection E as <-; auto.
Qed.

Lemma launch_ok (o : Origin) (t : Task unit) (now : Z) (w : World) :
  preserves I C t -> C now -> world_ok I C w -> world_ok I C (launch o t now w).
Proof.
  intros Ht Hc [Hb Hf]. unfold launch.
  destruct (preserves_run t now (machine w) Ht Hc Hb) as [Hb' Ht'].
  destruct (run t now (machine w)) as [m' t']. simpl in *.
  split; [exact Hb'|].
  destruct (request t'); [|exact Hf].
  apply Forall_app. split; [exact Hf|]. constructor; [exact Ht'|constructor].
Qed.

Hypothesis methods_ok : forall c, preserves I C (body c).
Hypothesis cycle_ok : preserves I C checkAndRebalance.

Lemma step_ok (w : World) (e : Event) :
  C (time_of e) -> world_ok I C w -> world_ok I C (step w e).
Proof.
  intros Hc Hw. destruct e as [c now | h now | i r now]; simpl in *.
  - apply launch_ok; [apply methods_ok | exact Hc | exact Hw].
  - destruct (in_dec Nat.eq_dec h (timers (machine w))); [|exact Hw].
    apply launch_ok; [exact cycle_ok | exact Hc | exact Hw].
  - destruct (nth_error (inflight w) i) as [s|] eqn:Es; [|exact Hw].
    destruct (resume (task s) r) as [t|] eqn:Er; [|exact Hw].
    destruct Hw as [Hb Hf].
    apply launch_ok.
    + apply (preserves_resume (task s) t r); [|exact Er].
      rewrite Forall_forall in Hf. apply Hf.
      apply (nth_error_In _ _ Es).
    + exact Hc.
    + split; [exact Hb|]. simpl. apply Forall_drop_nth. exact Hf.
Qed.

Lemma exec_ok (events : list Event) (w : World) :
  Forall (fun e => C (time_of e)) events ->
  world_ok I C w -> world_ok I C (exec w events).
Proof.
  revert w. induction events as [|e events IH]; intros w Hc Hw; simpl.
  - exact Hw.
  - inversion Hc; subst. apply IH; [assumption|].
    apply step_ok; assumption.
Qed.

End PreservationFacts.

(** ** The error log (C9) *)

Lemma push_error_spec (line : LogLine) (errs : list LogLine) :
  (List.length errs <= 100)%nat ->
  ((List.length errs < 100)%nat ->
   push_error line errs = (errs ++ [line])%list) /\
  (List.length errs = 100%nat ->
   push_error line errs = (tl errs ++ [line])%list) /\
  (List.length (push_error line errs) <= 100)%nat /\
  last (push_error line errs) line = line.
Proof.
  intros Hlen. unfold push_error.
  rewrite length_app. simpl.
  destruct (100 <? Z.of_nat (List.length errs + 1)) eqn:E.
  - apply Z.ltb_lt in E.
    assert (Hfull : List.length errs = 100%nat) by lia.
    destruct errs as [|e errs]; [discriminate|]. simpl in *.
    repeat split; try lia.
    + rewrite length_app. simpl. lia.
    + apply last_last.
  - apply Z.ltb_ge in E.
    repeat split; try lia.
    + rewrite length_app. simpl. lia.
    + apply last_last.
Qed.

(** ** Proof tools for invariants *)

(** One step of a proof that a method preserves an invariant; [solve_bot]
    proves the invariant of a bot that the method writes. *)
Ltac keeps_step solve_bot :=
  match goal with
  | |- preserves _ _ (bind (DateNow _) _) => cbn [bind]
  | |- preserves _ _ (bind _ _) => apply preserves_bind
  | |- preserves _ _ (catch _ _) => apply preserves_catch
  | H : forall message, preserves _ _ (?f message)
    |- preserves _ _ (?f _) => apply H
  | H : preserves _ _ ?t |- preserves _ _ ?t => exact H
  | |- preserves _ _ (when ?c _) => unfold when
  | |- preserves _ _ (if ?c then _ else _) => destruct c
  | |- preserves _ _ (match ?x with _ => _ end) => destruct x
  | |- preserves _ _ _ => constructor
  | |- forall _, _ => intro
  | |- _ => solve_bot
  end.

Ltac solve_log_bounded :=
  idtac;
  match goal with
  | H : log_bounded ?b |- log_bounded _ =>
      solve [ exact H
            | unfold log_bounded in *; simpl;
              apply push_error_spec; exact H ]
  end.

Ltac solve_last_time_set :=
  idtac;
  match goal with
  | H : last_time_set ?b |- last_time_set _ =>
      solve [ exact H
            | unfold last_time_set, after_epoch in *; simpl;
              first [ exact H | intros E; injection E as E; lia ] ]
  end.

Ltac keeps_log := repeat keeps_step solve_log_bounded.

Ltac keeps_time := repeat keeps_step solve_last_time_set.

(** Unfolds the methods of the bot down to the constructors of [Task]. *)
Ltac unfold_methods :=
  unfold startMonitoring, stopMonitoring, updateConfig, triggerRebalance,
    getPositionInfo, checkRebalanceNeeded, getBot, dateNow, emit, when,
    setInterval, clearInterval, assign_state, assign,
    await_rebalancePosition, await_getPosition.

Lemma logStatus_keeps_log (message : string) :
  preserves log_bounded any_time (logStatus message).
Proof. unfold logStatus, getBot, dateNow, emit, when. keeps_log. Qed.

Lemma logError_keeps_log (message : string) :
  preserves log_bounded any_time (logError message).
Proof.
  unfold logError, getBot, dateNow, emit, when, assign_state, assign.
  keeps_log.
Qed.

Lemma canRebalance_keeps_log : preserves log_bounded any_time canRebalance.
Proof. unfold canRebalance, getBot, dateNow. keeps_log. Qed.

Lemma executeRebalance_keeps_log :
  preserves log_bounded any_time executeRebalance.
Proof.
  unfold executeRebalance.
  pose proof logStatus_keeps_log. pose proof logError_keeps_log.
  unfold getBot, dateNow, emit, when, assign_state, assign,
    await_rebalancePosition.
  keeps_log.
Qed.

Lemma checkAndRebalance_keeps_log :
  preserves log_bounded any_time checkAndRebalance.
Proof.
  unfold checkAndRebalance.
  pose proof logStatus_keeps_log. pose proof logError_keeps_log.
  pose proof canRebalance_keeps_log. pose proof executeRebalance_keeps_log.
  unfold getBot, await_getPosition.
  keeps_log.
Qed.

Lemma body_keeps_log (c : ApiCall) : preserves log_bounded any_time (body c).
Proof.
  pose proof logStatus_keeps_log. pose proof logError_keeps_log.
  pose proof canRebalance_keeps_log. pose proof checkAndRebalance_keeps_log.
  destruct c; simpl; unfold_methods; keeps_log.
Qed.

(** C9.  Whatever the presentation layer calls, whenever the timer fires
    and however the ledger answers, from construction on, the error log
    never holds more than 100 lines; and [logError] appends its line at the
    end, after evicting exactly the oldest line when the log already holds
    100, so the lines kept are the most recent ones in their order. *)
Theorem error_log_bounded
    (config : RebalanceConfig) (onStatusUpdate onRebalance : bool)
    (events : list Event) :
  (List.length
     (errors (state (bot (machine
        (exec (boot config onStatusUpdate onRebalance) events)))))
   <= 100)%nat /\
  forall (m : Machine) (now : Z) (message : string),
    let m' := fst (run (logError message) now m) in
    let line := {| at_ms := now; text := ("ERROR: " ++ message)%string |} in
    let errs := errors (state (bot m)) in
    snd (run (logError message) now m) = Ret tt /\
    ((List.length errs < 100)%nat ->
     errors (state (bot m')) = (errs ++ [line])%list) /\
    (List.length errs = 100%nat ->
     errors (state (bot m')) = (tl errs ++ [line])%list) /\
    ((List.length errs <= 100)%nat ->
     (List.length (errors (state (bot m'))) <= 100)%nat /\
     last (errors (state (bot m'))) line = line).
Proof.
  split.
  - assert (Hw : world_ok log_bounded any_time
                   (exec (boot config onStatusUpdate onRebalance) events)).
    { apply exec_ok.
      - apply body_keeps_log.
      - apply checkAndRebalance_keeps_log.
      - apply Forall_forall. intros e _. exact I.
      - split; [|constructor]. unfold log_bounded. simpl. lia. }
    exact (proj1 Hw).
  - intros [[cfg st mi pid osu orb] tm nt out] now message.
    assert (E : errors (state (bot (fst (run (logError message) now
                  {| bot := {| config := cfg; state := st;
                               monitoringInterval := mi; positionId := pid;
                               onStatusUpdate := osu; onRebalance := orb |};
                     timers := tm; nextTimer := nt; output := out |}))))
                = push_error
                    {| at_ms := now; text := ("ERROR: " ++ message)%string |}
                    (errors st)).
    { destruct osu; reflexivity. }
    cbv zeta. rewrite E. simpl errors at 1 2 3.
    split; [destruct osu; reflexivity|].
    split; [intros H; apply push_error_spec; [lia | exact H]|].
    split; [intros H; apply push_error_spec; [lia | exact H]|].
    intros H. split; apply push_error_spec; exact H.
Qed.

(** ** The clock and the last rebalance time *)

Lemma logStatus_keeps_time (message : string) :
  preserves last_time_set after_epoch (logStatus message).
Proof. unfold logStatus, getBot, dateNow, emit, when. keeps_time. Qed.

Lemma logError_keeps_time (message : string) :
  preserves last_time_set after_epoch (logError message).
Proof.
  unfold logError, getBot, dateNow, emit, when, assign_state, assign.
  keeps_time.
Qed.

Lemma canRebalance_keeps_time :
  preserves last_time_set after_epoch canRebalance.
Proof. unfold canRebalance, getBot, dateNow. keeps_time. Qed.

Lemma executeRebalance_keeps_time :
  preserves last_time_set after_epoch executeRebalance.
Proof.
  unfold executeRebalance.
  pose proof logStatus_keeps_time. pose proof logError_keeps_time.
  unfold getBot, dateNow, emit, when, assign_state, assign,
    await_rebalancePosition.
  keeps_time.
Qed.

Lemma checkAndRebalance_keeps_time :
  preserves last_time_set after_epoch checkAndRebalance.
Proof.
  unfold checkAndRebalance.
  pose proof logStatus_keeps_time. pose proof logError_keeps_time.
  pose proof canRebalance_keeps_time. pose proof executeRebalance_keeps_time.
  unfold getBot, await_getPosition.
  keeps_time.
Qed.

Lemma body_keeps_time (c : ApiCall) :
  preserves last_time_set after_epoch (body c).
Proof.
  pose proof logStatus_keeps_time. pose proof logError_keeps_time.
  pose proof canRebalance_keeps_time. pose proof checkAndRebalance_keeps_time.
  destruct c; simpl; unfold_methods; keeps_time.
Qed.

(** With a clock that reads after the epoch, the last rebalance time of a
    bot is never the falsy 0: the states that the rebalance check is stated
    for are all the states a bot reaches. *)
Lemma last_rebalance_time_never_zero
    (config : RebalanceConfig) (onStatusUpdate onRebalance : bool)
    (events : list Event) :
  Forall (fun e => 0 < time_of e) events ->
  lastRebalanceTime
    (state (bot (machine
       (exec (boot config onStatusUpdate onRebalance) events))))
  <> Some 0.
Proof.
  intros Hc.
  assert (Hw : world_ok last_time_set after_epoch
                 (exec (boot config onStatusUpdate onRebalance) events)).
  { apply exec_ok.
    - apply body_keeps_time.
    - apply checkAndRebalance_keeps_time.
    - exact Hc.
    - split; [|constructor]. unfold last_time_set. simpl. discriminate. }
  exact (proj1 Hw).
Qed.

(** ** Overlapping cycles (C6) *)

(** C6, as the code has it.  A tick of a live interval timer starts a
    monitoring cycle at once, whatever is in flight: when the bot has a
    position id, the cycles in flight after the tick are those before it
    and one more, which waits for [getPosition]; the bot object is as
    before.  Nothing skips or queues the tick. *)
Theorem timer_tick_starts_cycle (w : World) (h : nat) (now : Z) :
  In h (timers (machine w)) ->
  truthy (positionId (bot (machine w))) = true ->
  bot (machine (step w (TimerFires h now))) = bot (machine w) /\
  List.length (cycles (step w (TimerFires h now)))
    = S (List.length (cycles w)) /\
  pending (cycles (step w (TimerFires h now)))
    = (pending (cycles w)
       ++ [Some (GetPositionCall
                   (show_id (positionId (bot (machine w)))))])%list.
Proof.
  intros Hh Hp. unfold step.
  destruct (in_dec Nat.eq_dec h (timers (machine w))) as [_|Hn];
    [|contradiction].
  destruct w as [[[cfg st mi pid osu orb] tm nt out] fl].
  destruct pid as [[|c s]|]; try discriminate.
  unfold launch, cycles, pending. cbn.
  rewrite filter_app, length_app, map_app. cbn.
  repeat split; try reflexivity. lia.
Qed.

(** C6, the claim as stated fails: in the run [overlapping_ticks] two
    cycles are in flight together, each waiting for its own
    [rebalancePosition] call (hence its own liquidity removal) on the same
    position "0xpos". *)
Lemma two_cycles_rebalance_at_once :
  pending (cycles (exec monitoring_world overlapping_ticks))
  = [ Some (RebalanceCall "0xpos" default_config);
      Some (RebalanceCall "0xpos" default_config) ] /\
  (1 < List.length
         (cycles (exec monitoring_world overlapping_ticks)))%nat.
Proof.
  split; vm_compute; [reflexivity | lia].
Qed.

(** ** Instances and scenarios *)


Lemma timer_tick_starts_cycle_witness :
  In 0%nat (timers (machine monitoring_world)) /\
  truthy (positionId (bot (machine monitoring_world))) = true /\
  List.length (cycles (step monitoring_world (TimerFires 0 31200)))
    = S (List.length (cycles monitoring_world)).
Proof.
  assert (H1 : In 0%nat (timers (machine monitoring_world)))
    by (vm_compute; left; reflexivity).
  assert (H2 : truthy (positionId (bot (machine monitoring_world))) = true)
    by (vm_compute; reflexivity).
  split; [exact H1|]. split; [exact H2|].
  exact (proj1 (proj2 (timer_tick_starts_cycle monitoring_world 0 31200
                         H1 H2))).
Defined.


(** The manual path on a failure result: the counters, the position id and
    the error log are as [triggerRebalance] finds them (this path writes no
    error line), and the failure result is returned to the caller. *)
Lemma triggerRebalance_failure_frame
    (m : Machine) (now : Z) (r : RebalanceResult) :
  truthy (positionId (bot m)) = true ->
  success r = false ->
  forall (m2 : Machine) (later : Z),
    let end2 := settle (snd (run triggerRebalance now m))
                  (RebalanceSettled (Fulfilled r)) later m2 in
    snd end2 = Ret r /\
    bot (fst end2) = bot m2 /\
    (onRebalance (bot m2) = true ->
     output (fst end2) = (output m2 ++ [Rebalance r])%list).
Proof.
  intros Hp Hs.
  destruct m as [[cfg st mi pid osu orb] tm nt out].
  destruct pid as [[|c s]|]; try discriminate.
  destruct r as [ok tx gas npid nlo nup err]. simpl in Hs. subst ok.
  intros [[cfg2 st2 mi2 pid2 osu2 orb2] tm2 nt2 out2] later.
  destruct osu; destruct orb2; cbn; repeat split; try reflexivity;
    discriminate.
Qed.

(** A failed rebalance of the scheduled path, evaluated: one error line, no
    counter moved. *)
Example executeRebalance_rejected_run :
  state (bot (fst (play executeRebalance
                     [(RebalanceSettled (Fulfilled result_rejected), 2000)]
                     1000 bot_monitoring_old)))
  = {| isRunning := false; lastRebalanceTime := None; rebalanceCount := 0;
       totalGasSpent := 0;
       errors := [ {| at_ms := 2000;
                      text := "ERROR: Rebalance failed: InsufficientGas" |} ]
    |}.
Proof. vm_compute. reflexivity. Qed.

(** The boundary ticks count as in range, the next ticks outside do not. *)
Example isPriceOutOfRange_boundaries :
  forall p : LiquidityPosition,
    (currentTick p = tickLower p \/ currentTick p = tickUpper p) ->
    tickLower p <= tickUpper p ->
    isPriceOutOfRange p = false.
Proof.
  intros p H Hle. unfold isPriceOutOfRange.
  apply orb_false_iff. split.
  - apply Z.ltb_ge. lia.
  - rewrite Z.gtb_ltb. apply Z.ltb_ge. lia.
Qed.

(** One tick below the lower bound and one tick above the upper bound are
    out of range. *)
Example isPriceOutOfRange_next_ticks :
  forall p : LiquidityPosition,
    (currentTick p = tickLower p - 1 \/ currentTick p = tickUpper p + 1) ->
    isPriceOutOfRange p = true.
Proof.
  intros p H. unfold isPriceOutOfRange.
  apply orb_true_iff. rewrite Z.ltb_lt, Z.gtb_ltb, Z.ltb_lt. lia.
Qed.

(** Two successful rebalances with gas costs 100 and 250 leave a total of
    350 and a count of 2. *)
Example totalGasSpent_adds_up :
  forall r1 r2 : RebalanceResult,
    r1 = {| success := true; txHash := Some "0xa"; gasCost := Some 100;
            newPositionId := None; newTickLower := None;
            newTickUpper := None; error := None |} ->
    r2 = {| success := true; txHash := Some "0xb"; gasCost := Some 250;
            newPositionId := None; newTickLower := None;
            newTickUpper := None; error := None |} ->
    let after :=
      fst (play (executeRebalance ;; executeRebalance)
             [(RebalanceSettled (Fulfilled r1), 2000);
              (RebalanceSettled (Fulfilled r2), 400000)]
             1000 bot_monitoring_old) in
    totalGasSpent (state (bot after)) = 350 /\
    rebalanceCount (state (bot after)) = 2 /\
    lastRebalanceTime (state (bot after)) = Some 400000.
Proof.
  intros r1 r2 -> ->. vm_compute. repeat split; reflexivity.
Qed.

(** The scenario of the specification: ten seconds after a rebalance, with
    an interval of 300 seconds, the check waits for 290 seconds more. *)
Example checkRebalanceNeeded_waits_290s :
  play checkRebalanceNeeded
    [(PositionSettled (Fulfilled (Some position_out_of_range)), 1010000)]
    1010000 bot_rebalanced_recently
  = (bot_rebalanced_recently,
     Ret {| needed := false;
            reason := Some "Waiting 290s for min rebalance interval" |}).
Proof. vm_compute. reflexivity. Qed.

(** The scenario of the specification: out of range with no rebalance yet,
    the check answers that a rebalance is needed. *)
Example checkRebalanceNeeded_needed :
  play checkRebalanceNeeded
    [(PositionSettled (Fulfilled (Some position_out_of_range)), 1010000)]
    1010000 bot_monitoring_old
  = (bot_monitoring_old,
     Ret {| needed := true;
            reason :=
              Some "Price out of range! Current: 2500, Range: [1000, 2000]"
         |}).
Proof. vm_compute. reflexivity. Qed.

(** With the placeholder signer of the source, [rebalancePosition] fails on
    every input. *)
Lemma rebalancePosition_placeholder_fails
    (senderAddress : option string) (position : option LiquidityPosition)
    (poolInfo : option PoolInfo) (positionId : string)
    (config : RebalanceConfig) :
  success (rebalancePosition senderAddress position poolInfo
             getSigner_placeholder positionId config) = false.
Proof.
  unfold rebalancePosition, getSigner_placeholder.
  destruct (negb (truthy senderAddress)); [reflexivity|].
  destruct position as [p|]; [|reflexivity].
  destruct (negb (isPriceOutOfRange p)); [reflexivity|].
  destruct poolInfo; reflexivity.
Qed.

(** * Further properties of the code *)

(** ** Starting and stopping *)

(** X1.  [startMonitoring] on a bot that is already running is rejected
    with "Bot is already running" before anything else happens: the bot
    object, the timers and the output are untouched and no ledger call is
    made. *)
Theorem startMonitoring_rejects_running
    (m : Machine) (now : Z) (positionId : string) (checkIntervalMs : Z) :
  isRunning (state (bot m)) = true ->
  run (startMonitoring positionId checkIntervalMs) now m
  = (m, Throw "Bot is already running").
Proof.
  intros Hr. destruct m as [[cfg st mi pid osu orb] tm nt out].
  simpl in Hr. cbn. rewrite Hr. reflexivity.
Qed.

(** X2.  [startMonitoring] on a stopped bot records the position id, sets
    the running flag and asks the ledger for that position before any timer
    exists; when that initial check ends without a rebalance (the position
    is in range, or missing) the interval timer is installed with a fresh
    handle that the bot remembers, and the call returns. *)
Theorem startMonitoring_checks_then_schedules
    (m : Machine) (now : Z) (id : string) (checkIntervalMs : Z) :
  isRunning (state (bot m)) = false ->
  id <> "" ->
  let started := run (startMonitoring id checkIntervalMs) now m in
  positionId (bot (fst started)) = Some id /\
  isRunning (state (bot (fst started))) = true /\
  timers (fst started) = timers m /\
  monitoringInterval (bot (fst started)) = monitoringInterval (bot m) /\
  request (snd started) = Some (GetPositionCall id) /\
  forall (m2 : Machine) (later : Z) (answer : option LiquidityPosition),
    match answer with
    | Some position => isPriceOutOfRange position = false
    | None => True
    end ->
    let done := settle (snd started) (PositionSettled (Fulfilled answer))
                  later m2 in
    snd done = Ret tt /\
    monitoringInterval (bot (fst done)) = Some (nextTimer m2) /\
    timers (fst done) = nextTimer m2 :: timers m2 /\
    nextTimer (fst done) = S (nextTimer m2) /\
    positionId (bot (fst done)) = positionId (bot m2) /\
    isRunning (state (bot (fst done))) = isRunning (state (bot m2)) /\
    rebalanceCount (state (bot (fst done)))
      = rebalanceCount (state (bot m2)).
Proof.
  intros Hr Hid.
  destruct m as [[cfg st mi pid osu orb] tm nt out].
  destruct st as [running last cnt gas errs]. simpl in Hr. subst running.
  destruct id as [|c s]; [congruence|].
  cbv zeta.
  do 5 (split; [destruct osu; reflexivity|]).
  intros [[cfg2 st2 mi2 pid2 osu2 orb2] tm2 nt2 out2] later answer Ha.
  destruct answer as [position|].
  - destruct osu; simp_task; rewrite Ha; destruct osu2; cbn;
      repeat split.
  - destruct osu; destruct osu2; cbn; repeat split.
Qed.

(** X3.  A position id is not validated: without a usable id ([null] or the
    empty string) a monitoring cycle only writes the error "No position ID
    set" and makes no ledger call; and [startMonitoring] with the empty
    string still sets the running flag and installs the interval timer, so
    every tick ends in that error. *)
Theorem cycle_without_position_id
    (m : Machine) (now : Z) (checkIntervalMs : Z) :
  let line := {| at_ms := now; text := "ERROR: No position ID set" |} in
  (truthy (positionId (bot m)) = false ->
   snd (run checkAndRebalance now m) = Ret tt /\
   errors (state (bot (fst (run checkAndRebalance now m))))
     = push_error line (errors (state (bot m))) /\
   rebalanceCount (state (bot (fst (run checkAndRebalance now m))))
     = rebalanceCount (state (bot m)) /\
   timers (fst (run checkAndRebalance now m)) = timers m) /\
  (isRunning (state (bot m)) = false ->
   let started := run (startMonitoring "" checkIntervalMs) now m in
   snd started = Ret tt /\
   positionId (bot (fst started)) = Some "" /\
   isRunning (state (bot (fst started))) = true /\
   monitoringInterval (bot (fst started)) = Some (nextTimer m) /\
   timers (fst started) = nextTimer m :: timers m /\
   errors (state (bot (fst started)))
     = push_error line (errors (state (bot m)))).
Proof.
  destruct m as [[cfg st mi pid osu orb] tm nt out].
  destruct st as [running last cnt gas errs].
  cbv zeta. split.
  - intros Hp. destruct pid as [[|c s]|]; try discriminate;
      destruct osu; cbn; repeat split.
  - intros Hr. simpl in Hr. subst running.
    destruct osu; cbn; repeat split.
Qed.

Lemma cycle_without_position_id_witness :
  truthy (positionId (bot fresh_machine)) = false /\
  isRunning (state (bot fresh_machine)) = false /\
  snd (run checkAndRebalance 1000 fresh_machine) = Ret tt /\
  snd (run (startMonitoring "" 30000) 1000 fresh_machine) = Ret tt.
Proof.
  split; [reflexivity|]. split; [reflexivity|].
  destruct (cycle_without_position_id fresh_machine 1000 30000)
    as [H1 H2].
  split; [exact (proj1 (H1 eq_refl)) | exact (proj1 (H2 eq_refl))].
Defined.

(** X4.  [stopMonitoring] is safe to repeat: a second call finds no timer,
    leaves the bot object and the host's timers exactly as the first call
    left them, and only writes its status line again. *)
Theorem stopMonitoring_twice (m : Machine) (now later : Z) :
  let once := fst (run stopMonitoring now m) in
  let twice := run stopMonitoring later once in
  snd twice = Ret tt /\
  bot (fst twice) = bot once /\
  timers (fst twice) = timers once /\
  nextTimer (fst twice) = nextTimer once.
Proof.
  destruct m as [[cfg st mi pid osu orb] tm nt out].
  destruct mi; destruct osu; cbn; repeat split.
Qed.

(** X5.  Stopping during the initial check does not stop the monitoring:
    when [stopMonitoring] runs while [startMonitoring] still waits for its
    first snapshot, it finds no timer to clear; once the snapshot arrives
    (in range, or missing) [startMonitoring] installs the interval timer
    all the same, on a bot whose running flag is off. *)
Theorem stop_during_initial_check
    (m : Machine) (now stopped later : Z) (id : string)
    (checkIntervalMs : Z) (answer : option LiquidityPosition) :
  isRunning (state (bot m)) = false ->
  id <> "" ->
  match answer with
  | Some position => isPriceOutOfRange position = false
  | None => True
  end ->
  let started := run (startMonitoring id checkIntervalMs) now m in
  let halted := fst (run stopMonitoring stopped (fst started)) in
  let done := settle (snd started) (PositionSettled (Fulfilled answer))
                later halted in
  isRunning (state (bot halted)) = false /\
  timers halted = match monitoringInterval (bot m) with
                  | Some h => List.remove Nat.eq_dec h (timers m)
                  | None => timers m
                  end /\
  snd done = Ret tt /\
  isRunning (state (bot (fst done))) = false /\
  monitoringInterval (bot (fst done)) = Some (nextTimer m) /\
  In (nextTimer m) (timers (fst done)).
Proof.
  intros Hr Hid Ha.
  destruct m as [[cfg st mi pid osu orb] tm nt out].
  destruct st as [running last cnt gas errs]. simpl in Hr. subst running.
  destruct id as [|c s]; [congruence|].
  cbv zeta.
  destruct answer as [position|].
  - destruct mi; destruct osu; simp_task; rewrite Ha; cbn;
      repeat split; left; reflexivity.
  - destruct mi; destruct osu; cbn; repeat split; left; reflexivity.
Qed.

Lemma stop_during_initial_check_witness :
  isRunning (state (bot fresh_machine)) = false /\
  "0xpos" <> "" /\
  isPriceOutOfRange position_in_range = false /\
  isRunning
    (state (bot (fst (settle
       (snd (run (startMonitoring "0xpos" 30000) 1000 fresh_machine))
       (PositionSettled (Fulfilled (Some position_in_range))) 1200
       (fst (run stopMonitoring 1100
               (fst (run (startMonitoring "0xpos" 30000) 1000
                       fresh_machine))))))))
    = false /\
  In (nextTimer fresh_machine)
    (timers (fst (settle
       (snd (run (startMonitoring "0xpos" 30000) 1000 fresh_machine))
       (PositionSettled (Fulfilled (Some position_in_range))) 1200
       (fst (run stopMonitoring 1100
               (fst (run (startMonitoring "0xpos" 30000) 1000
                       fresh_machine))))))).
Proof.
  assert (H0 : isRunning (state (bot fresh_machine)) = false)
    by reflexivity.
  assert (H1 : "0xpos" <> "") by discriminate.
  assert (H2 : isPriceOutOfRange position_in_range = false) by reflexivity.
  split; [exact H0|]. split; [exact H1|]. split; [exact H2|].
  destruct (stop_during_initial_check fresh_machine 1000 1100 1200 "0xpos"
              30000 (Some position_in_range) H0 H1 H2)
    as (_ & _ & _ & H3 & _ & H4).
  split; [exact H3 | exact H4].
Defined.

(** X6.  At the level of the host, [stopMonitoring] clears the bot's timer
    and leaves the calls in flight alone: a cycle that waits for the ledger
    is not cancelled, and a later tick of the cleared timer changes
    nothing. *)
Theorem stop_cancels_schedule_only (w : World) (now : Z) (h : nat) :
  monitoringInterval (bot (machine w)) = Some h ->
  let stopped := step w (Calls StopMonitoring now) in
  inflight stopped = inflight w /\
  ~ In h (timers (machine stopped)) /\
  isRunning (state (bot (machine stopped))) = false /\
  forall later, step stopped (TimerFires h later) = stopped.
Proof.
  intros Hh.
  destruct w as [[[cfg st mi pid osu orb] tm nt out] fl].
  simpl in Hh. subst mi. cbv zeta.
  set (line := {| at_ms := now; text := "Bot stopped monitoring" |}).
  assert (E :
    step {| machine :=
              {| bot := {| config := cfg; state := st;
                           monitoringInterval := Some h; positionId := pid;
                           onStatusUpdate := osu; onRebalance := orb |};
                 timers := tm; nextTimer := nt; output := out |};
            inflight := fl |} (Calls StopMonitoring now)
    = {| machine :=
           {| bot := {| config := cfg; state := set_isRunning false st;
                        monitoringInterval := None; positionId := pid;
                        onStatusUpdate := osu; onRebalance := orb |};
              timers := List.remove Nat.eq_dec h tm; nextTimer := nt;
              output := if osu
                        then ((out ++ [ConsoleLog line])
                              ++ [StatusUpdate line])%list
                        else (out ++ [ConsoleLog line])%list |};
         inflight := fl |}).
  { destruct osu; reflexivity. }
  rewrite E. cbn [inflight machine timers bot state isRunning set_isRunning].
  split; [reflexivity|]. split; [apply remove_In|]. split; [reflexivity|].
  intros later. unfold step. cbn [machine timers].
  destruct (in_dec Nat.eq_dec h (List.remove Nat.eq_dec h tm)) as [Hin|_];
    [|reflexivity].
  exfalso. exact (remove_In Nat.eq_dec tm h Hin).
Qed.

Lemma stop_cancels_schedule_only_witness :
  monitoringInterval (bot (machine monitoring_world)) = Some 0%nat /\
  inflight (step monitoring_world (Calls StopMonitoring 2000))
    = inflight monitoring_world /\
  ~ In 0%nat (timers (machine (step monitoring_world
                                 (Calls StopMonitoring 2000)))).
Proof.
  assert (H0 : monitoringInterval (bot (machine monitoring_world))
               = Some 0%nat) by (vm_compute; reflexivity).
  split; [exact H0|].
  destruct (stop_cancels_schedule_only monitoring_world 2000 0 H0)
    as (H1 & H2 & _).
  split; [exact H1 | exact H2].
Defined.

(** ** The monitoring cycle *)

(** X7.  A cycle whose snapshot cannot be fetched is skipped: whether
    [getPosition] answers [null] or fails, the cycle pushes one error line
    ("Position not found: ..." or "Error during check: ..."), ends without
    a rebalance call, and leaves the counters, the last rebalance time, the
    position id, the running flag and the timers as it finds them. *)
Theorem cycle_skips_on_fetch_failure (m : Machine) (now : Z) :
  truthy (positionId (bot m)) = true ->
  bot (fst (run checkAndRebalance now m)) = bot m /\
  request (snd (run checkAndRebalance now m))
    = Some (GetPositionCall (show_id (positionId (bot m)))) /\
  forall (m2 : Machine) (later : Z)
         (answer : Settled (option LiquidityPosition)),
    match answer with
    | Fulfilled (Some _) => False
    | _ => True
    end ->
    let done := settle (snd (run checkAndRebalance now m))
                  (PositionSettled answer) later m2 in
    let line :=
      {| at_ms := later;
         text := match answer with
                 | Rejected msg => "ERROR: Error during check: " ++ msg
                 | _ => "ERROR: Position not found: "
                        ++ show_id (positionId (bot m2))
                 end%string |} in
    snd done = Ret tt /\
    errors (state (bot (fst done)))
      = push_error line (errors (state (bot m2))) /\
    rebalanceCount (state (bot (fst done)))
      = rebalanceCount (state (bot m2)) /\
    totalGasSpent (state (bot (fst done)))
      = totalGasSpent (state (bot m2)) /\
    lastRebalanceTime (state (bot (fst done)))
      = lastRebalanceTime (state (bot m2)) /\
    isRunning (state (bot (fst done))) = isRunning (state (bot m2)) /\
    positionId (bot (fst done)) = positionId (bot m2) /\
    config (bot (fst done)) = config (bot m2) /\
    timers (fst done) = timers m2.
Proof.
  intros Hp.
  destruct m as [[cfg st mi pid osu orb] tm nt out].
  destruct pid as [[|c s]|]; try discriminate.
  split; [reflexivity|]. split; [reflexivity|].
  intros [[cfg2 st2 mi2 pid2 osu2 orb2] tm2 nt2 out2] later answer Ha.
  destruct answer as [[position|]|msg]; [contradiction| |];
    destruct osu2; cbn; repeat split.
Qed.

(** X8.  A cycle that finds the price in range (the bounds included) only
    writes a status line: the bot object and the timers are unchanged and
    no rebalance is attempted, whatever the interval gate would say. *)
Theorem cycle_in_range_changes_nothing
    (m : Machine) (now : Z) (position : LiquidityPosition) :
  truthy (positionId (bot m)) = true ->
  tickLower position <= currentTick position <= tickUpper position ->
  forall (m2 : Machine) (later : Z),
    let done := settle (snd (run checkAndRebalance now m))
                  (PositionSettled (Fulfilled (Some position))) later m2 in
    snd done = Ret tt /\
    bot (fst done) = bot m2 /\
    timers (fst done) = timers m2 /\
    In (ConsoleLog {| at_ms := later;
                      text := ("Price in range. Current tick: "
                               ++ range_text position)%string |})
       (output (fst done)).
Proof.
  intros Hp Hin.
  assert (Ho : isPriceOutOfRange position = false).
  { unfold isPriceOutOfRange. apply orb_false_iff.
    rewrite Z.gtb_ltb, !Z.ltb_ge. lia. }
  destruct m as [[cfg st mi pid osu orb] tm nt out].
  destruct pid as [[|c s]|]; try discriminate.
  intros [[cfg2 st2 mi2 pid2 osu2 orb2] tm2 nt2 out2] later.
  simp_task. rewrite Ho.
  destruct osu2; cbn -[String.append range_text];
    repeat split; rewrite ?in_app_iff; simpl; tauto.
Qed.



(** ** The executor and the manual trigger *)

(** X11.  After a successful result, [executeRebalance] has raised the
    count by one, set the last rebalance time to the clock reading, added
    the reported gas cost to the total (nothing when the result carries
    none), and passed the result to the [onRebalance] observer when one is
    attached; the error log, the running flag and the configuration are as
    it found them. *)
Theorem executeRebalance_success_bookkeeping
    (m : Machine) (now : Z) (r : RebalanceResult) :
  truthy (positionId (bot m)) = true ->
  success r = true ->
  forall (m2 : Machine) (later : Z),
    let done := settle (snd (run executeRebalance now m))
                  (RebalanceSettled (Fulfilled r)) later m2 in
    snd done = Ret tt /\
    rebalanceCount (state (bot (fst done)))
      = rebalanceCount (state (bot m2)) + 1 /\
    lastRebalanceTime (state (bot (fst done))) = Some later /\
    totalGasSpent (state (bot (fst done)))
      = totalGasSpent (state (bot m2))
        + match gasCost r with Some gas => gas | None => 0 end /\
    errors (state (bot (fst done))) = errors (state (bot m2)) /\
    isRunning (state (bot (fst done))) = isRunning (state (bot m2)) /\
    config (bot (fst done)) = config (bot m2) /\
    positionId (bot (fst done))
      = (if truthy (newPositionId r) then newPositionId r
         else positionId (bot m2)) /\
    (onRebalance (bot m2) = true ->
     exists before, output (fst done) = (before ++ [Rebalance r])%list).
Proof.
  intros Hp Hs.
  destruct m as [[cfg st mi pid osu orb] tm nt out].
  destruct pid as [[|c s]|]; try discriminate.
  destruct r as [ok tx gas npid nlo nup err]. simpl in Hs. subst ok.
  intros [[cfg2 st2 mi2 pid2 osu2 orb2] tm2 nt2 out2] later.
  destruct osu; destruct gas; destruct osu2; destruct orb2;
    destruct npid as [[|c' s']|]; cbn;
    (repeat split; try reflexivity; try lia;
     intros E; try discriminate; eexists; reflexivity).
Qed.


(** X13.  When the call to [rebalancePosition] itself fails (the promise is
    rejected), [executeRebalance] catches the error: it pushes the line
    "Error during rebalance: ..." on the error log, moves no counter, keeps
    the position id, and does not call the [onRebalance] observer. *)
Theorem executeRebalance_catches_rejection
    (m : Machine) (now : Z) (msg : string) :
  truthy (positionId (bot m)) = true ->
  forall (m2 : Machine) (later : Z),
    let done := settle (snd (run executeRebalance now m))
                  (RebalanceSettled (Rejected msg)) later m2 in
    let line := {| at_ms := later;
                   text := ("ERROR: Error during rebalance: " ++ msg)%string
                |} in
    snd done = Ret tt /\
    errors (state (bot (fst done)))
      = push_error line (errors (state (bot m2))) /\
    rebalanceCount (state (bot (fst done)))
      = rebalanceCount (state (bot m2)) /\
    totalGasSpent (state (bot (fst done)))
      = totalGasSpent (state (bot m2)) /\
    lastRebalanceTime (state (bot (fst done)))
      = lastRebalanceTime (state (bot m2)) /\
    positionId (bot (fst done)) = positionId (bot m2) /\
    output (fst done)
      = (output m2 ++ ConsoleError line
           :: (if onStatusUpdate (bot m2) then [StatusUpdate line]
               else []))%list.
Proof.
  intros Hp.
  destruct m as [[cfg st mi pid osu orb] tm nt out].
  destruct pid as [[|c s]|]; try discriminate.
  intros [[cfg2 st2 mi2 pid2 osu2 orb2] tm2 nt2 out2] later.
  destruct osu; destruct osu2; cbn; repeat split;
    rewrite <- ?app_assoc; reflexivity.
Qed.

(** X14.  The manual trigger has no such handler: when the call to
    [rebalancePosition] fails, [triggerRebalance] fails with the same
    error, having changed nothing since the call, and no observer is
    called; and without a usable position id it returns the failure "No
    position being monitored" without touching the bot, the output or the
    ledger. *)
Theorem triggerRebalance_failures (m : Machine) (now : Z) :
  (truthy (positionId (bot m)) = false ->
   run triggerRebalance now m
   = (m, Ret {| success := false; txHash := None; gasCost := None;
                newPositionId := None; newTickLower := None;
                newTickUpper := None;
                error := Some "No position being monitored" |})) /\
  (truthy (positionId (bot m)) = true ->
   forall (m2 : Machine) (later : Z) (msg : string),
     settle (snd (run triggerRebalance now m))
       (RebalanceSettled (Rejected msg)) later m2
     = (m2, Throw msg)).
Proof.
  destruct m as [[cfg st mi pid osu orb] tm nt out].
  split.
  - intros Hp. destruct pid as [[|c s]|]; try discriminate; reflexivity.
  - intros Hp. destruct pid as [[|c s]|]; try discriminate.
    intros m2 later msg. destruct osu; reflexivity.
Qed.

(** X15.  The manual trigger bypasses the interval gate and the running
    flag: with a position id it calls [rebalancePosition] at once, whatever
    the last rebalance time; on a successful result it does the
    bookkeeping of the scheduled path (count, time, gas) and returns the
    result, without writing to the error log. *)
Theorem triggerRebalance_bypasses_gate
    (m : Machine) (now : Z) (r : RebalanceResult) :
  truthy (positionId (bot m)) = true ->
  success r = true ->
  request (snd (run triggerRebalance now m))
    = Some (RebalanceCall (show_id (positionId (bot m))) (config (bot m))) /\
  bot (fst (run triggerRebalance now m)) = bot m /\
  forall (m2 : Machine) (later : Z),
    let done := settle (snd (run triggerRebalance now m))
                  (RebalanceSettled (Fulfilled r)) later m2 in
    snd done = Ret r /\
    rebalanceCount (state (bot (fst done)))
      = rebalanceCount (state (bot m2)) + 1 /\
    lastRebalanceTime (state (bot (fst done))) = Some later /\
    totalGasSpent (state (bot (fst done)))
      = totalGasSpent (state (bot m2))
        + match gasCost r with Some gas => gas | None => 0 end /\
    errors (state (bot (fst done))) = errors (state (bot m2)) /\
    isRunning (state (bot (fst done))) = isRunning (state (bot m2)).
Proof.
  intros Hp Hs.
  destruct m as [[cfg st mi pid osu orb] tm nt out].
  destruct pid as [[|c s]|]; try discriminate.
  destruct r as [ok tx gas npid nlo nup err]. simpl in Hs. subst ok.
  split; [destruct osu; reflexivity|].
  split; [destruct osu; reflexivity|].
  intros [[cfg2 st2 mi2 pid2 osu2 orb2] tm2 nt2 out2] later.
  destruct osu; destruct gas; destruct orb2; cbn;
    repeat split; try reflexivity; lia.
Qed.

(** ** What a bot never loses *)

Section HistoryFacts.

Variable R : Bot -> Bot -> Prop.
Hypothesis R_refl : forall b, R b b.
Hypothesis R_trans : forall a b c, R a b -> R b c -> R a c.



Lemma keeps_order_run {A : Type} (t : Task A) (now : Z) (m : Machine) :
  keeps_order R (bot m) t ->
  R (bot m) (bot (fst (run t now m))) /\
  forall cur, keeps_order R cur (snd (run t now m)).
Proof.
  remember (bot m) as cur eqn:Ecur. intros Ht. revert m Ecur.
  induction Ht; intros m Ecur; subst; simpl.
  - split; [apply R_refl | intros; constructor].
  - split; [apply R_refl | intros; constructor].
  - apply IHHt. reflexivity.
  - destruct (IHHt (with_bot b m) eq_refl) as [H1 H2].
    split; [|exact H2]. apply R_trans with b; assumption.
  - apply H0. reflexivity.
  - apply (IHHt (with_output o m)). reflexivity.
  - apply (H0 (nextTimer m) (with_new_timer m)). reflexivity.
  - apply (IHHt (without_timer h m)). reflexivity.
  - split; [apply R_refl | intros; constructor; assumption].
  - split; [apply R_refl | intros; constructor; assumption].
Qed.

Lemma keeps_order_resume {A : Type} (t t' : Task A) (r : Response) :
  (forall cur, keeps_order R cur t) -> resume t r = Some t' ->
  forall cur, keeps_order R cur t'.
Proof.
  intros Ht Er cur. specialize (Ht cur).
  destruct Ht; destruct r; simpl in Er; try discriminate;
    injection Er as <-; auto.
Qed.

Hypothesis methods_keep : forall c cur, keeps_order R cur (body c).
Hypothesis cycle_keeps : forall cur, keeps_order R cur checkAndRebalance.

Lemma launch_keeps (o : Origin) (t : Task unit) (now : Z) (w : World) :
  (forall cur, keeps_order R cur t) -> inflight_keep_order R w ->
  R (bot (machine w)) (bot (machine (launch o t now w))) /\
  inflight_keep_order R (launch o t now w).
Proof.
  intros Ht Hf. unfold launch.
  destruct (keeps_order_run t now (machine w) (Ht _)) as [H1 H2].
  destruct (run t now (machine w)) as [m' t']. simpl in *.
  split; [exact H1|]. unfold inflight_keep_order in *. simpl.
  destruct (request t'); [|exact Hf].
  apply Forall_app. split; [exact Hf|]. constructor; [exact H2|constructor].
Qed.

Lemma step_keeps (w : World) (e : Event) :
  inflight_keep_order R w ->
  R (bot (machine w)) (bot (machine (step w e))) /\
  inflight_keep_order R (step w e).
Proof.
  intros Hf. destruct e as [c now | h now | i r now]; simpl.
  - apply launch_keeps; [intros; apply methods_keep | exact Hf].
  - destruct (in_dec Nat.eq_dec h (timers (machine w)));
      [|split; [apply R_refl | exact Hf]].
    apply launch_keeps; [exact cycle_keeps | exact Hf].
  - destruct (nth_error (inflight w) i) as [s|] eqn:Es;
      [|split; [apply R_refl | exact Hf]].
    destruct (resume (task s) r) as [t|] eqn:Er;
      [|split; [apply R_refl | exact Hf]].
    apply (launch_keeps (origin s) t now
             {| machine := machine w; inflight := drop_nth i (inflight w) |}).
    + apply (keeps_order_resume (task s) t r); [|exact Er].
      unfold inflight_keep_order in Hf. rewrite Forall_forall in Hf.
      apply Hf. apply (nth_error_In _ _ Es).
    + unfold inflight_keep_order in *. simpl.
      apply Forall_drop_nth. exact Hf.
Qed.

Lemma exec_keeps (events : list Event) (w : World) :
  inflight_keep_order R w ->
  R (bot (machine w)) (bot (machine (exec w events))) /\
  inflight_keep_order R (exec w events).
Proof.
  revert w. induction events as [|e events IH]; intros w Hf; simpl.
  - split; [apply R_refl | exact Hf].
  - destruct (step_keeps w e Hf) as [H1 H2].
    destruct (IH (step w e) H2) as [H3 H4].
    split; [|exact H4]. apply R_trans with (bot (machine (step w e)));
      assumption.
Qed.

End HistoryFacts.











(** The order in which a state invariant [I] is kept: a later bot
    satisfies [I] if the earlier one did. *)
Lemma kept_refl (I : Bot -> Prop) (b : Bot) : kept I b b.
Proof. unfold kept. auto. Qed.

Lemma kept_trans (I : Bot -> Prop) (a b c : Bot) :
  kept I a b -> kept I b c -> kept I a c.
Proof. unfold kept. auto. Qed.

(** Unfolds every method down to the constructors of [Task]. *)
Ltac unfold_all_methods :=
  unfold_methods;
  unfold checkAndRebalance, executeRebalance, canRebalance, logError,
    logStatus, getBot, dateNow, emit, when, assign_state, assign,
    await_rebalancePosition, await_getPosition.

(** Follows a method through its synchronous stretches, keeping track of
    the bot that each assignment writes. *)
Ltac track_step :=
  match goal with
  | |- keeps_order _ _ _ => progress cbn [bind catch]
  | |- keeps_order _ _ ?t =>
      match t with
      | context [match ?x with _ => _ end] => destruct x eqn:?
      end
  | |- keeps_order _ _ _ => constructor
  | |- forall _, _ => intro
  | |- kept books_consistent _ _ =>
      solve [ unfold kept, books_consistent; simpl; intros;
              first [ discriminate | auto ] ]
  end.

Lemma body_keeps_books (c : ApiCall) (cur : Bot) :
  keeps_order (kept books_consistent) cur (body c).
Proof.
  destruct c; simpl; unfold_all_methods; repeat track_step.
Qed.

Lemma checkAndRebalance_keeps_books (cur : Bot) :
  keeps_order (kept books_consistent) cur checkAndRebalance.
Proof. unfold_all_methods; repeat track_step. Qed.

(** X17.  The books of a bot are consistent over every run: a bot that has
    counted a rebalance or any gas has a last rebalance time. *)
Theorem books_stay_consistent
    (cfg : RebalanceConfig) (status_observer rebalance_observer : bool)
    (events : list Event) :
  let this := bot (machine (exec (boot cfg status_observer
                                    rebalance_observer) events)) in
  (rebalanceCount (state this) <> 0 \/ totalGasSpent (state this) <> 0) ->
  lastRebalanceTime (state this) <> None.
Proof.
  set (w0 := boot cfg status_observer rebalance_observer).
  assert (H0 : inflight_keep_order (kept books_consistent) w0)
    by constructor.
  destruct (exec_keeps (kept books_consistent) (kept_refl _)
              (kept_trans _) body_keeps_books checkAndRebalance_keeps_books
              events w0 H0) as [G _].
  cbv zeta. intros Hne Hlast.
  assert (Hb : books_consistent (bot (machine w0))).
  { unfold books_consistent. simpl. auto. }
  destruct (G Hb Hlast) as [Hc Hg]. destruct Hne; contradiction.
Qed.

(** ** Updating the configuration *)

Lemma spread_override (c : RebalanceConfig) (first second : PartialConfig) :
  spread (spread c first) second = spread c (override first second).
Proof.
  destruct c as [c1 c2 c3 c4 c5].
  destruct first as [a1 a2 a3 a4 a5]. destruct second as [b1 b2 b3 b4 b5].
  unfold spread, override; simpl.
  f_equal; [destruct b1 | destruct b2 | destruct b3 | destruct b4
           | destruct b5]; reflexivity.
Qed.

Lemma spread_no_update (c : RebalanceConfig) : spread c no_update = c.
Proof. destruct c. reflexivity. Qed.

Lemma spread_twice (c : RebalanceConfig) (p : PartialConfig) :
  spread (spread c p) p = spread c p.
Proof.
  destruct c as [c1 c2 c3 c4 c5]. destruct p as [a1 a2 a3 a4 a5].
  unfold spread; simpl.
  f_equal; [destruct a1 | destruct a2 | destruct a3 | destruct a4
           | destruct a5]; reflexivity.
Qed.

Lemma updateConfig_config (m : Machine) (now : Z) (p : PartialConfig) :
  config (bot (fst (run (updateConfig p) now m)))
  = spread (config (bot m)) p.
Proof.
  destruct m as [[cfg st mi pid osu orb] tm nt out].
  destruct osu; reflexivity.
Qed.

(** X18.  Updates of the configuration compose field by field: two
    [updateConfig] calls in a row leave the configuration that the single
    update [{ ...first, ...second }] leaves, an update without fields
    leaves the configuration as it is, and repeating an update changes
    nothing more. *)
Theorem updateConfig_composes
    (m : Machine) (now later : Z) (first second : PartialConfig) :
  let after (p : PartialConfig) (at_time : Z) (from : Machine) :=
    fst (run (updateConfig p) at_time from) in
  config (bot (after second later (after first now m)))
    = config (bot (after (override first second) now m)) /\
  config (bot (after no_update now m)) = config (bot m) /\
  config (bot (after first later (after first now m)))
    = config (bot (after first now m)).
Proof.
  cbv beta zeta. rewrite !updateConfig_config.
  split; [apply spread_override|].
  split; [apply spread_no_update | apply spread_twice].
Qed.

(** ** CetusService: the outcomes of [rebalancePosition] *)

(** [rebalancePosition] by cases on its guards, with the transaction that
    it submits named. *)
Lemma rebalancePosition_unfold
    (senderAddress : option string) (position : option LiquidityPosition)
    (poolInfo : option PoolInfo) (submit : RebalanceTx -> Settled ExecResult)
    (positionId : string) (config : RebalanceConfig) :
  rebalancePosition senderAddress position poolInfo submit positionId config
  = let failure (msg : string) :=
      {| success := false; txHash := None; gasCost := None;
         newPositionId := None; newTickLower := None; newTickUpper := None;
         error := Some msg |} in
    if truthy senderAddress then
      match position, poolInfo with
      | None, _ => failure "Position not found"
      | Some p, pool =>
        if isPriceOutOfRange p then
          match pool with
          | None => failure "Pool not found"
          | Some pool =>
            match submit (rebalanceTx p pool positionId config) with
            | Fulfilled answer =>
              {| success := true;
                 txHash := Some (digest answer);
                 gasCost := Some (match computationCost answer with
                                  | Some c => c
                                  | None => 0
                                  end);
                 newPositionId := None;
                 newTickLower :=
                   Some (range_tickLower
                           (calculateNewTickRange (pool_currentTick pool)
                              (pool_tickSpacing pool)
                              (Q2R (rangeWidthPercent config))));
                 newTickUpper :=
                   Some (range_tickUpper
                           (calculateNewTickRange (pool_currentTick pool)
                              (pool_tickSpacing pool)
                              (Q2R (rangeWidthPercent config))));
                 error := None |}
            | Rejected msg => failure msg
            end
          end
        else failure "Price is still within range"
      end
    else failure "Wallet not connected".
Proof.
  unfold rebalancePosition, rebalanceTx.
  destruct (truthy senderAddress); [|reflexivity].
  destruct position as [p|]; [|reflexivity].
  destruct (isPriceOutOfRange p); [|reflexivity].
  destruct poolInfo; reflexivity.
Qed.


(** X20.  With the results that [rebalancePosition] produces, a rebalance
    never changes the position that the bot monitors: whether the result
    is a success or a failure, it carries no new position id, and
    [executeRebalance] keeps the id it finds. *)
Theorem executeRebalance_keeps_id_with_cetus
    (m : Machine) (now : Z)
    (senderAddress : option string) (position : option LiquidityPosition)
    (poolInfo : option PoolInfo) (submit : RebalanceTx -> Settled ExecResult)
    (id : string) (cfg : RebalanceConfig) :
  truthy (positionId (bot m)) = true ->
  forall (m2 : Machine) (later : Z),
    let result := rebalancePosition senderAddress position poolInfo submit
                    id cfg in
    let done := settle (snd (run executeRebalance now m))
                  (RebalanceSettled (Fulfilled result)) later m2 in
    snd done = Ret tt /\
    positionId (bot (fst done)) = positionId (bot m2) /\
    rebalanceCount (state (bot (fst done)))
      = rebalanceCount (state (bot m2))
        + (if success result then 1 else 0).
Proof.
  intros Hp m2 later. cbv zeta.
  assert (Hn : newPositionId (rebalancePosition senderAddress position
                                poolInfo submit id cfg) = None).
  { rewrite rebalancePosition_unfold. cbv zeta.
    destruct (truthy senderAddress); [|reflexivity].
    destruct position as [p|]; [|reflexivity].
    destruct (isPriceOutOfRange p); [|reflexivity].
    destruct poolInfo; [|reflexivity].
    destruct (submit _); reflexivity. }
  destruct (rebalancePosition senderAddress position poolInfo submit id cfg)
    as [ok tx gas npid nlo nup err].
  simpl in Hn. subst npid.
  destruct m as [[c0 st mi pid osu orb] tm nt out].
  destruct pid as [[|c s]|]; try discriminate.
  destruct m2 as [[cfg2 st2 mi2 pid2 osu2 orb2] tm2 nt2 out2].
  destruct osu; destruct ok; destruct gas; destruct osu2; destruct orb2;
    cbn; repeat split; lia.
Qed.

(** ** The slippage minimum, continued *)

Lemma round_half_up_comp (p q : Q) :
  (p == q)%Q -> BN.round_half_up p = BN.round_half_up q.
Proof.
  intros E. unfold BN.round_half_up.
  assert (Hb : Qle_bool 0 p = Qle_bool 0 q).
  { destruct (Qle_bool 0 p) eqn:Ep; destruct (Qle_bool 0 q) eqn:Eq;
      try reflexivity.
    - apply Qle_bool_iff in Ep. rewrite E in Ep.
      apply Qle_bool_iff in Ep. congruence.
    - apply Qle_bool_iff in Eq. rewrite <- E in Eq.
      apply Qle_bool_iff in Eq. congruence. }
  rewrite Hb. destruct (Qle_bool 0 q).
  - apply Qfloor_comp. rewrite E. reflexivity.
  - apply Qceiling_comp. rewrite E. reflexivity.
Qed.

Lemma round_half_up_Z (z : Z) : BN.round_half_up (inject_Z z) = z.
Proof.
  pose proof (round_half_up_near (inject_Z z)) as [H1 H2].
  set (r := BN.round_half_up (inject_Z z)) in *.
  assert (Hlo : (inject_Z (z - 1) < inject_Z r)%Q).
  { unfold Z.sub. rewrite inject_Z_plus.
    change (inject_Z (- (1))) with (- (1))%Q.
    set (a := inject_Z z) in *. set (b := inject_Z r) in *. lra. }
  assert (Hhi : (inject_Z r < inject_Z (z + 1))%Q).
  { rewrite inject_Z_plus. change (inject_Z 1) with 1%Q.
    set (a := inject_Z z) in *. set (b := inject_Z r) in *. lra. }
  rewrite <- Zlt_Qlt in Hlo, Hhi. lia.
Qed.

Lemma round_half_up_mono (p q : Q) :
  (p <= q)%Q -> BN.round_half_up p <= BN.round_half_up q.
Proof.
  intros Hpq.
  destruct (Qlt_le_dec p 0) as [Hp | Hp];
    destruct (Qlt_le_dec q 0) as [Hq | Hq].
  - rewrite (proj1 (round_half_up_neg p Hp)),
      (proj1 (round_half_up_neg q Hq)).
    apply Qceiling_resp_le. lra.
  - pose proof (proj2 (round_half_up_neg p Hp)).
    pose proof (proj2 (round_half_up_nonneg q Hq)). lia.
  - lra.
  - rewrite (proj1 (round_half_up_nonneg p Hp)),
      (proj1 (round_half_up_nonneg q Hq)).
    apply Qfloor_resp_le. lra.
Qed.

(** X21.  For a whole non-negative amount and a tolerance between 0 and
    100 percent, the minimum amount that [buildAddLiquidityTx] asks for
    lies between 0 and the amount itself; with a tolerance of 0 it is the
    amount. *)
Theorem minAmount_within_amount (n : Z) (slippageTolerance : Q) :
  0 <= n ->
  (0 <= slippageTolerance <= 100)%Q ->
  0 <= minAmount (inject_Z n) slippageTolerance <= n /\
  ((slippageTolerance == 0)%Q ->
   minAmount (inject_Z n) slippageTolerance = n).
Proof.
  intros Hn [Ht0 Ht1].
  assert (HnQ : (0 <= inject_Z n)%Q).
  { change 0%Q with (inject_Z 0). rewrite <- Zle_Qle. exact Hn. }
  assert (Hf : (1 - slippageTolerance / 100
                == (100 - slippageTolerance) / 100)%Q) by field.
  assert (Hf0 : (0 <= 1 - slippageTolerance / 100)%Q).
  { rewrite Hf. apply Qle_shift_div_l; [reflexivity|]. lra. }
  assert (Hf1 : (1 - slippageTolerance / 100 <= 1)%Q).
  { rewrite Hf. apply Qle_shift_div_r; [reflexivity|]. lra. }
  unfold minAmount, BN.toFixed0, BN.times.
  set (f := (1 - slippageTolerance / 100)%Q) in *.
  split; [split|].
  - apply round_half_up_nonneg. apply Qmult_le_0_compat; assumption.
  - rewrite <- (round_half_up_Z n) at 2. apply round_half_up_mono.
    pose proof (Qmult_le_compat_r f 1 (inject_Z n) Hf1 HnQ) as H.
    setoid_replace (inject_Z n * f)%Q with (f * inject_Z n)%Q by ring.
    setoid_replace (1 * inject_Z n)%Q with (inject_Z n) in H by ring.
    exact H.
  - intros E. rewrite <- (round_half_up_Z n) at 2.
    apply round_half_up_comp. unfold f. rewrite E. field.
Qed.

Lemma minAmount_within_amount_witness :
  0 <= 1000 /\ (0 <= 1 # 2 <= 100)%Q /\
  0 <= minAmount (inject_Z 1000) (1 # 2) <= 1000.
Proof.
  assert (H0 : 0 <= 1000) by lia.
  assert (H1 : (0 <= 1 # 2 <= 100)%Q)
    by (split; vm_compute; discriminate).
  split; [exact H0|]. split; [exact H1|].
  exact (proj1 (minAmount_within_amount 1000 (1 # 2) H0 H1)).
Defined.

(** X22.  The minimum amount is monotone: for a tolerance of at most 100
    percent a larger amount never gets a smaller minimum, and for a
    non-negative amount a larger tolerance never gets a larger minimum. *)
Theorem minAmount_monotone (a b s t : Q) :
  ((a <= b)%Q -> (s <= 100)%Q -> minAmount a s <= minAmount b s) /\
  ((0 <= a)%Q -> (s <= t)%Q -> minAmount a t <= minAmount a s).
Proof.
  unfold minAmount, BN.toFixed0, BN.times.
  assert (Hf : forall u : Q, (1 - u / 100 == (100 - u) / 100)%Q)
    by (intros; field).
  split.
  - intros Hab Hs. apply round_half_up_mono.
    assert (H0 : (0 <= 1 - s / 100)%Q).
    { rewrite Hf. apply Qle_shift_div_l; [reflexivity|]. lra. }
    apply Qmult_le_compat_r; assumption.
  - intros Ha Hst. apply round_half_up_mono.
    assert (H1 : (1 - t / 100 <= 1 - s / 100)%Q).
    { rewrite !Hf. apply Qmult_le_compat_r; [lra|].
      apply Qinv_le_0_compat. discriminate. }
    pose proof (Qmult_le_compat_r _ _ a H1 Ha) as H.
    setoid_replace (a * (1 - t / 100))%Q with ((1 - t / 100) * a)%Q by ring.
    setoid_replace (a * (1 - s / 100))%Q with ((1 - s / 100) * a)%Q by ring.
    exact H.
Qed.

(** ** The new tick range, continued *)

Lemma Int_part_mono (x y : R) : (x <= y)%R -> Int_part x <= Int_part y.
Proof.
  intros Hxy.
  destruct (Int_part_bounds x) as [Hx _].
  destruct (Int_part_bounds y) as [_ Hy].
  assert (H : (IZR (Int_part x) < IZR (Int_part y + 1))%R).
  { rewrite plus_IZR. simpl. lra. }
  apply lt_IZR in H. lia.
Qed.

Lemma round_mono (x y : R) : (x <= y)%R -> Math.round x <= Math.round y.
Proof. intros H. unfold Math.round. apply Int_part_mono. lra. Qed.

Lemma ln_mono (x y : R) : (0 < x)%R -> (x <= y)%R -> (ln x <= ln y)%R.
Proof.
  intros Hx [H | H].
  - left. apply ln_increasing; assumption.
  - subst. lra.
Qed.

(** A larger width percentage never gives a smaller half width. *)
Lemma halfRangeOf_mono (w1 w2 : R) :
  (0 <= w1)%R -> (w1 <= w2)%R -> halfRangeOf w1 <= halfRangeOf w2.
Proof.
  intros H0 H12. unfold halfRangeOf, Math.log.
  apply round_mono.
  assert (Hd : (0 < ln (10001 / 10000))%R).
  { rewrite <- ln_1. apply ln_increasing; lra. }
  assert (Hr : Math.round (ln (1 + w1 / 100) / ln (10001 / 10000))
               <= Math.round (ln (1 + w2 / 100) / ln (10001 / 10000))).
  { apply round_mono. unfold Rdiv at 1 3.
    apply Rmult_le_compat_r.
    - left. apply Rinv_0_lt_compat. exact Hd.
    - apply ln_mono; lra. }
  apply IZR_le in Hr. lra.
Qed.

(** X23.  Moving the current tick by a whole number of spacings moves both
    bounds of the new range by the same distance: the range depends on the
    current tick only through its place between two multiples of the
    spacing. *)
Theorem calculateNewTickRange_shift
    (currentTick tickSpacing k : Z) (rangeWidthPercent : R) :
  0 < tickSpacing ->
  calculateNewTickRange (currentTick + k * tickSpacing) tickSpacing
    rangeWidthPercent
  = {| range_tickLower :=
         range_tickLower (calculateNewTickRange currentTick tickSpacing
                            rangeWidthPercent) + k * tickSpacing;
       range_tickUpper :=
         range_tickUpper (calculateNewTickRange currentTick tickSpacing
                            rangeWidthPercent) + k * tickSpacing |}.
Proof.
  intros Hs. rewrite !calculateNewTickRange_Z by exact Hs. simpl.
  set (h := halfRangeOf rangeWidthPercent).
  replace (currentTick + k * tickSpacing - h)
    with (currentTick - h + k * tickSpacing) by lia.
  replace (- (currentTick + k * tickSpacing + h))
    with (- (currentTick + h) + - k * tickSpacing) by lia.
  rewrite !Z.div_add by lia. f_equal; lia.
Qed.

Lemma calculateNewTickRange_shift_witness :
  0 < 60 /\
  calculateNewTickRange (1234 + 2 * 60) 60 10
  = {| range_tickLower :=
         range_tickLower (calculateNewTickRange 1234 60 10) + 2 * 60;
       range_tickUpper :=
         range_tickUpper (calculateNewTickRange 1234 60 10) + 2 * 60 |}.
Proof.
  assert (H : 0 < 60) by lia.
  split; [exact H|].
  exact (calculateNewTickRange_shift 1234 60 2 10 H).
Defined.



(** X25.  A larger width percentage never gives a narrower range: for the
    same current tick and spacing the range of the larger width contains
    the range of the smaller one. *)
Theorem calculateNewTickRange_widens
    (currentTick tickSpacing : Z) (narrow wide : R) :
  0 < tickSpacing ->
  (0 <= narrow)%R ->
  (narrow <= wide)%R ->
  range_tickLower (calculateNewTickRange currentTick tickSpacing wide)
    <= range_tickLower (calculateNewTickRange currentTick tickSpacing narrow)
  /\
  range_tickUpper (calculateNewTickRange currentTick tickSpacing narrow)
    <= range_tickUpper (calculateNewTickRange currentTick tickSpacing wide).
Proof.
  intros Hs H0 Hnw. rewrite !calculateNewTickRange_Z by exact Hs. simpl.
  pose proof (halfRangeOf_mono narrow wide H0 Hnw) as Hh.
  split.
  - apply Z.mul_le_mono_nonneg_r; [lia|].
    apply Z.div_le_mono; lia.
  - apply Z.mul_le_mono_nonneg_r; [lia|].
    apply Z.opp_le_mono. rewrite !Z.opp_involutive.
    apply Z.div_le_mono; lia.
Qed.

Lemma calculateNewTickRange_widens_witness :
  0 < 60 /\ (0 <= 5)%R /\ (5 <= 10)%R /\
  range_tickLower (calculateNewTickRange 1234 60 10)
    <= range_tickLower (calculateNewTickRange 1234 60 5).
Proof.
  assert (H : 0 < 60) by lia.
  assert (H0 : (0 <= 5)%R) by lra.
  assert (H1 : (5 <= 10)%R) by lra.
  split; [exact H|]. split; [exact H0|]. split; [exact H1|].
  exact (proj1 (calculateNewTickRange_widens 1234 60 5 10 H H0 H1)).
Defined.

(** ** Token amounts, continued *)

Lemma BN_lt_false (a b : Q) : BN.lt a b = false <-> (b <= a)%Q.
Proof.
  unfold BN.lt. destruct (Qle_bool b a) eqn:E; simpl.
  - apply Qle_bool_iff in E. tauto.
  - apply Qle_bool_false in E. split; [discriminate|].
    intros H. lra.
Qed.

Lemma BN_gt_false (a b : Q) : BN.gt a b = false <-> (a <= b)%Q.
Proof.
  unfold BN.gt. destruct (Qle_bool a b) eqn:E; simpl.
  - apply Qle_bool_iff in E. tauto.
  - apply Qle_bool_false in E. split; [discriminate|].
    intros H. lra.
Qed.

(** A BigNumber division by a non-zero divisor, written out. *)
Lemma BN_div_nonzero (a b : Q) :
  ~ (b == 0)%Q ->
  BN.div a b
  = Some (inject_Z (BN.round_half_up (a / b * BN.scale)) / BN.scale)%Q.
Proof.
  intros Hb. unfold BN.div.
  destruct (Qeq_bool b 0) eqn:E; [|reflexivity].
  apply Qeq_bool_iff in E. contradiction.
Qed.

(** The rounded quotient is monotone in the exact quotient. *)
Lemma BN_quotient_mono (p q : Q) :
  (p <= q)%Q ->
  (inject_Z (BN.round_half_up (p * BN.scale)) / BN.scale
   <= inject_Z (BN.round_half_up (q * BN.scale)) / BN.scale)%Q.
Proof.
  intros Hpq. pose proof scale_pos as Hs.
  unfold Qdiv. apply Qmult_le_compat_r.
  - rewrite <- Zle_Qle. apply round_half_up_mono.
    apply Qmult_le_compat_r; [exact Hpq | lra].
  - apply Qlt_le_weak, Qinv_lt_0_compat, Hs.
Qed.

(** The exact amount of token A falls as the price rises. *)
Lemma amountA_quotient_falls (L hi c1 c2 : Q) :
  (0 <= L)%Q -> (0 < c1)%Q -> (c1 <= c2)%Q -> (c2 <= hi)%Q ->
  (L * (hi - c2) / (hi * c2) <= L * (hi - c1) / (hi * c1))%Q.
Proof.
  intros HL H1 H12 H2.
  assert (Hhi : (0 < hi)%Q) by lra.
  assert (Hc2 : (0 < c2)%Q) by lra.
  assert (D1 : (0 < hi * c1)%Q) by (apply Qmult_lt_0_compat; assumption).
  assert (D2 : (0 < hi * c2)%Q) by (apply Qmult_lt_0_compat; assumption).
  apply Qle_shift_div_r; [exact D2|].
  setoid_replace (L * (hi - c1) / (hi * c1) * (hi * c2))%Q
    with (L * (hi - c1) * (hi * c2) / (hi * c1))%Q
    by (field; lra).
  apply Qle_shift_div_l; [exact D1|].
  apply Qle_minus_iff.
  setoid_replace (L * (hi - c1) * (hi * c2)
                  + - (L * (hi - c2) * (hi * c1)))%Q
    with (L * (hi * hi) * (c2 - c1))%Q by ring.
  apply Qmult_le_0_compat; [apply Qmult_le_0_compat|]; try lra.
  apply Qmult_le_0_compat; lra.
Qed.

(** Whatever the current price, [calculateTokenAmounts] gives the amounts
    of the in-range formulas at the price clamped into the range. *)
Lemma calculateTokenAmounts_clamped (L c lo hi : Q) :
  (0 < lo)%Q -> (lo <= hi)%Q ->
  exists c' a b : Q,
    ((c < lo /\ c' = lo) \/ (hi < c /\ c' = hi)
     \/ (lo <= c <= hi /\ c' = c))%Q /\
    out_amountA (calculateTokenAmounts L c lo hi) = Some a /\
    out_amountB (calculateTokenAmounts L c lo hi) = Some b /\
    (a == inject_Z (BN.round_half_up
                      (L * (hi - c') / (hi * c') * BN.scale)) / BN.scale)%Q /\
    (b == L * (c' - lo))%Q.
Proof.
  intros Hlo Hlh. unfold calculateTokenAmounts, BN.times, BN.minus.
  destruct (BN.lt c lo) eqn:E1.
  - apply BN_lt_iff in E1. exists lo. simpl.
    rewrite BN_div_nonzero
      by (intros E; assert (0 < hi * lo)%Q
            by (apply Qmult_lt_0_compat; lra); lra).
    eexists. eexists. split; [left; split; [exact E1 | reflexivity]|].
    split; [reflexivity|]. split; [reflexivity|].
    split; [reflexivity | ring].
  - apply BN_lt_false in E1.
    destruct (BN.gt c hi) eqn:E2.
    + apply BN_gt_iff in E2. exists hi. simpl.
      eexists. eexists.
      split; [right; left; split; [exact E2 | reflexivity]|].
      split; [reflexivity|]. split; [reflexivity|].
      split; [|ring].
      rewrite (round_half_up_comp _ (inject_Z 0)).
      * rewrite round_half_up_Z. reflexivity.
      * setoid_replace (hi - hi)%Q with 0%Q by ring.
        unfold Qdiv. rewrite Qmult_0_r, !Qmult_0_l. reflexivity.
    + apply BN_gt_false in E2. exists c. simpl.
      rewrite BN_div_nonzero
        by (intros E; assert (0 < hi * c)%Q
              by (apply Qmult_lt_0_compat; lra); lra).
      eexists. eexists.
      split; [right; right; split; [split; assumption | reflexivity]|].
      split; [reflexivity|]. split; [reflexivity|].
      split; reflexivity.
Qed.

(** X26.  The three-way split has no jump at the ends of the range.  With
    the current price exactly on the lower bound the in-range branch is
    taken and gives what every price below the range gives (the same
    amount of token A and a zero amount of token B); on the upper bound it
    gives what every price above the range gives (no token A and the same
    amount of token B). *)
Theorem calculateTokenAmounts_continuous_at_bounds
    (liquidity sqrtPriceLower sqrtPriceUpper below above : Q) :
  (0 < sqrtPriceLower)%Q ->
  (sqrtPriceLower <= sqrtPriceUpper)%Q ->
  (below < sqrtPriceLower)%Q ->
  (sqrtPriceUpper < above)%Q ->
  let amounts_at c :=
    calculateTokenAmounts liquidity c sqrtPriceLower sqrtPriceUpper in
  out_amountA (amounts_at sqrtPriceLower) = out_amountA (amounts_at below) /\
  out_amountB (amounts_at below) = Some 0%Q /\
  (exists b : Q,
     out_amountB (amounts_at sqrtPriceLower) = Some b /\ (b == 0)%Q) /\
  out_amountB (amounts_at sqrtPriceUpper) = out_amountB (amounts_at above) /\
  out_amountA (amounts_at above) = Some 0%Q /\
  (exists a : Q,
     out_amountA (amounts_at sqrtPriceUpper) = Some a /\ (a == 0)%Q).
Proof.
  intros Hlo Hlh Hb Ha amounts_at. subst amounts_at. cbv beta.
  unfold calculateTokenAmounts, BN.times, BN.minus.
  assert (E1 : BN.lt below sqrtPriceLower = true) by (apply BN_lt_iff; lra).
  assert (E2 : BN.lt sqrtPriceLower sqrtPriceLower = false)
    by (apply BN_lt_false; lra).
  assert (E3 : BN.gt sqrtPriceLower sqrtPriceUpper = false)
    by (apply BN_gt_false; lra).
  assert (E4 : BN.lt sqrtPriceUpper sqrtPriceLower = false)
    by (apply BN_lt_false; lra).
  assert (E5 : BN.gt sqrtPriceUpper sqrtPriceUpper = false)
    by (apply BN_gt_false; lra).
  assert (E6 : BN.lt above sqrtPriceLower = false)
    by (apply BN_lt_false; lra).
  assert (E7 : BN.gt above sqrtPriceUpper = true) by (apply BN_gt_iff; lra).
  rewrite E1, E2, E3, E4, E5, E6, E7. simpl.
  split; [reflexivity|]. split; [reflexivity|].
  split; [eexists; split; [reflexivity | ring]|].
  split; [reflexivity|]. split; [reflexivity|].
  rewrite BN_div_nonzero
    by (intros E; assert (0 < sqrtPriceUpper * sqrtPriceUpper)%Q
          by (apply Qmult_lt_0_compat; lra); lra).
  eexists; split; [reflexivity|].
  rewrite (round_half_up_comp _ (inject_Z 0)).
  - rewrite round_half_up_Z. reflexivity.
  - setoid_replace (sqrtPriceUpper - sqrtPriceUpper)%Q with 0%Q by ring.
    unfold Qdiv. rewrite Qmult_0_r, !Qmult_0_l. reflexivity.
Qed.

Lemma calculateTokenAmounts_continuous_at_bounds_witness :
  (0 < 2)%Q /\ (2 <= 3)%Q /\ (1 < 2)%Q /\ (3 < 4)%Q /\
  out_amountA (calculateTokenAmounts 1 2 2 3)
  = out_amountA (calculateTokenAmounts 1 1 2 3).
Proof.
  assert (H0 : (0 < 2)%Q) by reflexivity.
  assert (H1 : (2 <= 3)%Q) by (vm_compute; discriminate).
  assert (H2 : (1 < 2)%Q) by reflexivity.
  assert (H3 : (3 < 4)%Q) by reflexivity.
  repeat (split; [assumption|]).
  exact (proj1 (calculateTokenAmounts_continuous_at_bounds
                  1 2 3 1 4 H0 H1 H2 H3)).
Defined.

(** X27.  As the price rises the position holds less of token A and more
    of token B, across all three branches: for two current prices
    [earlier <= later] the amount of token A at the later price is at most
    the amount at the earlier one (also after the rounding of the
    division), and the amount of token B is at least as large. *)
Theorem calculateTokenAmounts_monotone_in_price
    (liquidity sqrtPriceLower sqrtPriceUpper earlier later : Q) :
  (0 <= liquidity)%Q ->
  (0 < sqrtPriceLower)%Q ->
  (sqrtPriceLower <= sqrtPriceUpper)%Q ->
  (earlier <= later)%Q ->
  exists a1 b1 a2 b2 : Q,
    out_amountA (calculateTokenAmounts liquidity earlier
                   sqrtPriceLower sqrtPriceUpper) = Some a1 /\
    out_amountB (calculateTokenAmounts liquidity earlier
                   sqrtPriceLower sqrtPriceUpper) = Some b1 /\
    out_amountA (calculateTokenAmounts liquidity later
                   sqrtPriceLower sqrtPriceUpper) = Some a2 /\
    out_amountB (calculateTokenAmounts liquidity later
                   sqrtPriceLower sqrtPriceUpper) = Some b2 /\
    (a2 <= a1)%Q /\ (b1 <= b2)%Q.
Proof.
  intros HL Hlo Hlh Hel.
  destruct (calculateTokenAmounts_clamped liquidity earlier
              sqrtPriceLower sqrtPriceUpper Hlo Hlh)
    as (c1 & a1 & b1 & Hc1 & Ea1 & Eb1 & Ha1 & Hb1).
  destruct (calculateTokenAmounts_clamped liquidity later
              sqrtPriceLower sqrtPriceUpper Hlo Hlh)
    as (c2 & a2 & b2 & Hc2 & Ea2 & Eb2 & Ha2 & Hb2).
  exists a1, b1, a2, b2.
  do 4 (split; [assumption|]).
  assert (Hc : (sqrtPriceLower <= c1 /\ c1 <= c2 /\ c2 <= sqrtPriceUpper)%Q).
  { destruct Hc1 as [[H1 ->] | [[H1 ->] | [[H1 H1'] ->]]];
      destruct Hc2 as [[H2 ->] | [[H2 ->] | [[H2 H2'] ->]]];
      repeat split; lra. }
  destruct Hc as (Hl1 & H12 & H2h).
  split.
  - rewrite Ha1, Ha2. apply BN_quotient_mono.
    apply amountA_quotient_falls; try assumption. lra.
  - rewrite Hb1, Hb2.
    apply Qle_minus_iff.
    setoid_replace (liquidity * (c2 - sqrtPriceLower)
                    + - (liquidity * (c1 - sqrtPriceLower)))%Q
      with (liquidity * (c2 - c1))%Q by ring.
    apply Qmult_le_0_compat; lra.
Qed.

Lemma calculateTokenAmounts_monotone_in_price_witness :
  (0 <= 1)%Q /\ (0 < 2)%Q /\ (2 <= 3)%Q /\ (1 <= 4)%Q /\
  exists a1 b1 a2 b2 : Q,
    out_amountA (calculateTokenAmounts 1 1 2 3) = Some a1 /\
    out_amountB (calculateTokenAmounts 1 1 2 3) = Some b1 /\
    out_amountA (calculateTokenAmounts 1 4 2 3) = Some a2 /\
    out_amountB (calculateTokenAmounts 1 4 2 3) = Some b2 /\
    (a2 <= a1)%Q /\ (b1 <= b2)%Q.
Proof.
  assert (H0 : (0 <= 1)%Q) by (vm_compute; discriminate).
  assert (H1 : (0 < 2)%Q) by reflexivity.
  assert (H2 : (2 <= 3)%Q) by (vm_compute; discriminate).
  assert (H3 : (1 <= 4)%Q) by (vm_compute; discriminate).
  repeat (split; [assumption|]).
  exact (calculateTokenAmounts_monotone_in_price 1 2 3 1 4 H0 H1 H2 H3).
Defined.

(** ** The service singleton and the wallet *)

(** X28.  [getCetusService] keeps one instance.  After any call the module
    variable holds the instance returned.  A later call that does not give
    both a network and a non-empty sender address returns that same
    instance and changes nothing, whatever network it asks for; only a
    call with both replaces the instance, by one with exactly that network
    and sender.  The very first call creates an instance on the requested
    network (mainnet when none is given) whose sender is the given address,
    or none when the address is absent or empty. *)
Theorem getCetusService_singleton
    (instance : option CetusService)
    (requested : option Network) (address : option string) :
  let variable := fst (getCetusService instance requested address) in
  let service := snd (getCetusService instance requested address) in
  variable = Some service /\
  (forall n a,
     n = None \/ truthy a = false ->
     getCetusService variable n a = (variable, service)) /\
  (forall old,
     instance = Some old ->
     requested = None \/ truthy address = false ->
     service = old) /\
  (forall n,
     requested = Some n -> truthy address = true ->
     network service = n /\ senderAddress service = address) /\
  (instance = None ->
   network service = match requested with Some n => n | None => mainnet end
   /\ (truthy address = true -> senderAddress service = address)
   /\ (truthy address = false -> senderAddress service = None)).
Proof.
  cbv zeta. unfold getCetusService.
  destruct instance as [old|]; destruct requested as [n0|];
    destruct (truthy address) eqn:Ea; cbn [fst snd];
    (split; [reflexivity|]);
    (split;
     [ intros n a [-> | Ha]; [destruct a; reflexivity|];
       destruct n; rewrite ?Ha; reflexivity |]);
    (split; [intros old' E [E' | E']; congruence|]);
    (split;
     [ intros n E Et; try discriminate;
       unfold newCetusService; rewrite Ea; cbn; split; congruence |]);
    intros E; try discriminate;
    unfold newCetusService; rewrite Ea; cbn;
    (split; [reflexivity|]); split; intros; congruence.
Qed.

(** X29.  A service created without a sender address -- as the application
    creates it, with [getCetusService('mainnet')] -- rejects every
    rebalance with "Wallet not connected", whatever the position, the pool
    and the ledger are; asking for the service again with only a network
    does not change that, and neither does [setSenderAddress] with the
    empty string.  Once [setSenderAddress] has stored a non-empty address
    the wallet check passes: a rebalance then fails on the next check
    (here, the position that is not found). *)
Theorem service_without_wallet_rejects
    (requested : option Network) (address : option string)
    (position : option LiquidityPosition) (poolInfo : option PoolInfo)
    (submit : RebalanceTx -> Settled ExecResult)
    (positionId : string) (config : RebalanceConfig) :
  truthy address = false ->
  let service := snd (getCetusService None requested address) in
  let attempt (this : CetusService) :=
    rebalancePosition (senderAddress this) position poolInfo submit
      positionId config in
  let rejected (result : RebalanceResult) :=
    success result = false /\
    error result = Some "Wallet not connected" in
  rejected (attempt service) /\
  (forall n,
     rejected
       (attempt (snd (getCetusService (Some service) n None)))) /\
  rejected (attempt (setSenderAddress "" service)) /\
  (forall wallet,
     truthy (Some wallet) = true ->
     position = None ->
     error (attempt (setSenderAddress wallet service))
     = Some "Position not found").
Proof.
  intros Ha. cbv zeta.
  unfold getCetusService, newCetusService. rewrite Ha. cbn [fst snd].
  split; [split; reflexivity|].
  split; [intros n; destruct n; split; reflexivity|].
  split; [split; reflexivity|].
  intros wallet Hw ->. unfold setSenderAddress, rebalancePosition.
  cbn [senderAddress]. rewrite Hw. reflexivity.
Qed.

Lemma service_without_wallet_rejects_witness :
  truthy None = false /\
  error (rebalancePosition
           (senderAddress (snd (getCetusService None (Some mainnet) None)))
           (Some position_out_of_range) None (fun _ => Rejected "unused")
           "0xpos" default_config)
  = Some "Wallet not connected".
Proof.
  assert (H : truthy None = false) by reflexivity.
  split; [exact H|].
  exact (proj2 (proj1 (service_without_wallet_rejects
                         (Some mainnet) None (Some position_out_of_range)
                         None (fun _ => Rejected "unused")
                         "0xpos" default_config H))).
Defined.

(** ** Token balances *)

(** X30.  [getTokenBalances] never fails: when the balances cannot be
    fetched it returns the empty list.  Otherwise it returns one entry per
    balance, in the same order, with the coin type and the total balance
    unchanged; a coin whose metadata is missing or cannot be fetched is
    listed as "UNKNOWN" with 9 decimals, and no entry ever has an empty
    symbol or 0 decimals -- a coin that really has 0 decimals is listed
    with 9. *)
Theorem getTokenBalances_shape
    (rpc : string -> Settled (option CoinMetadata)) :
  (forall msg, getTokenBalances (Rejected msg) rpc = []) /\
  (forall balances,
     let listed := getTokenBalances (Fulfilled balances) rpc in
     map tb_coinType listed = map bal_coinType balances /\
     map tb_balance listed = map totalBalance balances /\
     Forall (fun t => tb_symbol t <> EmptyString /\ tb_decimals t <> 0)
       listed /\
     Forall (fun t =>
               (forall m, rpc (tb_coinType t) <> Fulfilled (Some m)) ->
               tb_symbol t = "UNKNOWN" /\ tb_decimals t = 9)
       listed /\
     Forall (fun t =>
               forall m,
                 rpc (tb_coinType t) = Fulfilled (Some m) ->
                 decimals m = 0 -> tb_decimals t = 9)
       listed).
Proof.
  split; [reflexivity|].
  intros balances listed. subst listed. unfold getTokenBalances.
  rewrite !map_map. cbn [tb_coinType tb_balance].
  split; [reflexivity|]. split; [reflexivity|].
  rewrite !Forall_map. cbn [tb_coinType tb_symbol tb_decimals].
  split; [|split]; apply Forall_forall; intros b _.
  - unfold getCoinMetadata, symbol_or, decimals_or_9, truthy, truthy_num.
    destruct (rpc (bal_coinType b)) as [[m|]|msg]; cbn.
    + destruct (symbol m) eqn:Es; destruct (decimals m =? 0) eqn:Ed;
        cbn; rewrite ?Es; split; try discriminate;
        apply Z.eqb_neq in Ed; exact Ed.
    + split; discriminate.
    + split; discriminate.
  - intros Hno. unfold getCoinMetadata.
    destruct (rpc (bal_coinType b)) as [[m|]|msg]; cbn.
    + exfalso. apply (Hno m). reflexivity.
    + split; reflexivity.
    + split; reflexivity.
  - intros m E Hd. unfold getCoinMetadata, decimals_or_9, truthy_num.
    rewrite E. cbn. rewrite Hd. reflexivity.
Qed.

(** ** Instances of the properties above *)

Lemma startMonitoring_rejects_running_witness :
  isRunning (state (bot bot_starting)) = true /\
  run (startMonitoring "0xnext" 30000) 2000 bot_starting
  = (bot_starting, Throw "Bot is already running").
Proof.
  assert (H : isRunning (state (bot bot_starting)) = true) by reflexivity.
  split; [exact H|].
  exact (startMonitoring_rejects_running bot_starting 2000 "0xnext" 30000 H).
Defined.

Lemma startMonitoring_checks_then_schedules_witness :
  isRunning (state (bot fresh_machine)) = false /\
  "0xpos" <> "" /\
  positionId (bot (fst (run (startMonitoring "0xpos" 30000) 1000
                          fresh_machine))) = Some "0xpos".
Proof.
  assert (H : isRunning (state (bot fresh_machine)) = false) by reflexivity.
  assert (Hid : "0xpos" <> "") by discriminate.
  split; [exact H|]. split; [exact Hid|].
  exact (proj1 (startMonitoring_checks_then_schedules
                  fresh_machine 1000 "0xpos" 30000 H Hid)).
Defined.

Lemma cycle_skips_on_fetch_failure_witness :
  truthy (positionId (bot bot_monitoring_old)) = true /\
  bot (fst (run checkAndRebalance 1000 bot_monitoring_old))
  = bot bot_monitoring_old.
Proof.
  assert (H : truthy (positionId (bot bot_monitoring_old)) = true)
    by reflexivity.
  split; [exact H|].
  exact (proj1 (cycle_skips_on_fetch_failure bot_monitoring_old 1000 H)).
Defined.

Lemma cycle_in_range_changes_nothing_witness :
  truthy (positionId (bot bot_monitoring_old)) = true /\
  tickLower position_in_range <= currentTick position_in_range
    <= tickUpper position_in_range /\
  bot (fst (settle (snd (run checkAndRebalance 1000 bot_monitoring_old))
              (PositionSettled (Fulfilled (Some position_in_range)))
              1200 bot_monitoring_old))
  = bot bot_monitoring_old.
Proof.
  assert (H : truthy (positionId (bot bot_monitoring_old)) = true)
    by reflexivity.
  assert (Hin : tickLower position_in_range <= currentTick position_in_range
                  <= tickUpper position_in_range) by (cbn; lia).
  split; [exact H|]. split; [exact Hin|].
  exact (proj1 (proj2 (cycle_in_range_changes_nothing
                         bot_monitoring_old 1000 position_in_range H Hin
                         bot_monitoring_old 1200))).
Defined.



Lemma executeRebalance_success_bookkeeping_witness :
  truthy (positionId (bot bot_monitoring_old)) = true /\
  success result_with_new_position = true /\
  rebalanceCount
    (state (bot (fst (settle (snd (run executeRebalance 1000
                                     bot_monitoring_old))
                        (RebalanceSettled
                           (Fulfilled result_with_new_position))
                        1200 bot_monitoring_old))))
  = rebalanceCount (state (bot bot_monitoring_old)) + 1.
Proof.
  assert (H : truthy (positionId (bot bot_monitoring_old)) = true)
    by reflexivity.
  assert (Hs : success result_with_new_position = true) by reflexivity.
  split; [exact H|]. split; [exact Hs|].
  exact (proj1 (proj2 (executeRebalance_success_bookkeeping
                         bot_monitoring_old 1000 result_with_new_position
                         H Hs bot_monitoring_old 1200))).
Defined.


Lemma executeRebalance_catches_rejection_witness :
  truthy (positionId (bot bot_monitoring_old)) = true /\
  snd (settle (snd (run executeRebalance 1000 bot_monitoring_old))
         (RebalanceSettled (Rejected "timeout")) 1200 bot_monitoring_old)
  = Ret tt.
Proof.
  assert (H : truthy (positionId (bot bot_monitoring_old)) = true)
    by reflexivity.
  split; [exact H|].
  exact (proj1 (executeRebalance_catches_rejection
                  bot_monitoring_old 1000 "timeout" H
                  bot_monitoring_old 1200)).
Defined.

Lemma triggerRebalance_bypasses_gate_witness :
  truthy (positionId (bot bot_rebalanced_recently)) = true /\
  success result_with_new_position = true /\
  request (snd (run triggerRebalance 1010000 bot_rebalanced_recently))
  = Some (RebalanceCall
            (show_id (positionId (bot bot_rebalanced_recently)))
            (config (bot bot_rebalanced_recently))).
Proof.
  assert (H : truthy (positionId (bot bot_rebalanced_recently)) = true)
    by reflexivity.
  assert (Hs : success result_with_new_position = true) by reflexivity.
  split; [exact H|]. split; [exact Hs|].
  exact (proj1 (triggerRebalance_bypasses_gate
                  bot_rebalanced_recently 1010000 result_with_new_position
                  H Hs)).
Defined.

Lemma books_stay_consistent_witness :
  (rebalanceCount
     (state (bot (machine (exec (boot default_config true true)
                             one_rebalance_run)))) <> 0 \/
   totalGasSpent
     (state (bot (machine (exec (boot default_config true true)
                             one_rebalance_run)))) <> 0) /\
  lastRebalanceTime
    (state (bot (machine (exec (boot default_config true true)
                            one_rebalance_run)))) <> None.
Proof.
  assert (H : rebalanceCount
                (state (bot (machine (exec (boot default_config true true)
                                        one_rebalance_run)))) <> 0 \/
              totalGasSpent
                (state (bot (machine (exec (boot default_config true true)
                                        one_rebalance_run)))) <> 0).
  { left. vm_compute. discriminate. }
  split; [exact H|].
  exact (books_stay_consistent default_config true true one_rebalance_run H).
Defined.

Lemma executeRebalance_keeps_id_with_cetus_witness :
  truthy (positionId (bot bot_monitoring_old)) = true /\
  positionId
    (bot (fst (settle (snd (run executeRebalance 1000 bot_monitoring_old))
                 (RebalanceSettled
                    (Fulfilled
                       (rebalancePosition (Some "0xwallet")
                          (Some position_out_of_range)
                          (Some {| pool_tickSpacing := 60;
                                   pool_currentTick := 2500 |})
                          (fun _ => Fulfilled
                                      {| digest := "0xtx";
                                         computationCost := Some 100 |})
                          "0xold" default_config)))
                 1200 bot_monitoring_old)))
  = positionId (bot bot_monitoring_old).
Proof.
  assert (H : truthy (positionId (bot bot_monitoring_old)) = true)
    by reflexivity.
  split; [exact H|].
  exact (proj1 (proj2 (executeRebalance_keeps_id_with_cetus
                         bot_monitoring_old 1000 (Some "0xwallet")
                         (Some position_out_of_range)
                         (Some {| pool_tickSpacing := 60;
                                  pool_currentTick := 2500 |})
                         (fun _ => Fulfilled
                                     {| digest := "0xtx";
                                        computationCost := Some 100 |})
                         "0xold" default_config H
                         bot_monitoring_old 1200))).
Defined.
